(** * Multi-agent blog generator: the agent execution kernel, the shared
    state schema and the search providers, embedded from the Python sources

    - [src/state/schema.py]  : [AgentStatus], [create_initial_state],
      [validate_state]
    - [src/agents/base.py]   : [BaseAgent.__call__], [_update_status],
      [ConditionalAgent.__call__]
    - [src/tools/search.py]  : the three providers and [SearchTool]

    Python dictionaries with string keys are finite maps [gmap string value];
    none of the properties below depends on insertion order.  Python floats
    (clock readings and their differences) are rationals: every finite
    binary64 number is a rational and rounding a difference keeps its sign. *)

From Stdlib Require Import QArith Lqa.
From stdpp Require Import gmap strings list fin_maps.

Local Open Scope string_scope.
Local Open Scope list_scope.

(** ** Python values *)

Module Py.

(** [class AgentStatus(str, Enum)] *)
Inductive AgentStatus := PENDING | IN_PROGRESS | COMPLETED | FAILED.

(** [class ResearchQuality(str, Enum)] *)
Inductive ResearchQuality := HIGH | MEDIUM | LOW | UNKNOWN.

Definition status_value (st : AgentStatus) : string :=
  match st with
  | PENDING => "pending"
  | IN_PROGRESS => "in_progress"
  | COMPLETED => "completed"
  | FAILED => "failed"
  end.

Definition quality_value (q : ResearchQuality) : string :=
  match q with
  | HIGH => "high"
  | MEDIUM => "medium"
  | LOW => "low"
  | UNKNOWN => "unknown"
  end.

(** A naive [datetime] is determined by its ISO-8601 text, which is how it is
    represented here; [isoformat] projects it. *)
Inductive datetime := Datetime (iso : string).

Definition isoformat (d : datetime) : string :=
  match d with Datetime iso => iso end.

#[warnings="-register-all"]
Inductive value : Type :=
| VNone
| VBool (b : bool)
| VInt (n : Z)
| VFloat (x : Q)
| VStr (s : string)
| VStatus (st : AgentStatus)
| VQuality (q : ResearchQuality)
| VDatetime (d : datetime)
| VList (l : list value)
| VDict (d : gmap string value).

(** [Dict[str, Any]]; [AgentState] is a [TypedDict(total=False)], at run time
    a plain dictionary in which any key may be absent. *)
Abbreviation pydict := (gmap string value).

(** Instances of [Exception].  [Raised] is an exception raised by code outside
    the kernel (domain logic, a transport) whose [str] is [msg]; the other
    constructors are raised by the interpreter on an operand of the wrong
    kind.  The wording the interpreter gives them is not part of this
    repository: it is supplied by the environment, see [str_exn]. *)
Inductive exn :=
| Raised (msg : string)
| TypeError (op : string) (operand : value)
| AttributeError (operand : value) (attr : string)
| KeyError (key : string)
| HTTPError (status : Z).

(** [bool(v)] *)
Definition truthy (v : value) : bool :=
  match v with
  | VNone => false
  | VBool b => b
  | VInt n => negb (n =? 0)%Z
  | VFloat x => negb (Qeq_bool x 0)
  | VStr s => negb (String.eqb s "")
  | VStatus st => negb (String.eqb (status_value st) "")
  | VQuality q => negb (String.eqb (quality_value q) "")
  | VDatetime _ => true
  | VList l => match l with [] => false | _ => true end
  | VDict d => negb (bool_decide (d = ∅))
  end.

(** [len(v)]: defined on strings (the two string enums included), lists and
    dictionaries; a [TypeError] on every other value. *)
Definition py_len (v : value) : exn + nat :=
  match v with
  | VStr s => inr (String.length s)
  | VStatus st => inr (String.length (status_value st))
  | VQuality q => inr (String.length (quality_value q))
  | VList l => inr (length l)
  | VDict d => inr (size d)
  | _ => inl (TypeError "len" v)
  end.

(** [d.get(key, default)] *)
Definition dict_get (d : pydict) (key : string) (default : value) : value :=
  match d !! key with
  | Some v => v
  | None => default
  end.

(** [d[key]] *)
Definition subscript (d : pydict) (key : string) : exn + value :=
  match d !! key with
  | Some v => inr v
  | None => inl (KeyError key)
  end.

(** [{**v, ...}]: the mapping that is unpacked; a [TypeError] when [v] is not
    a mapping. *)
Definition unpack (v : value) : exn + pydict :=
  match v with
  | VDict d => inr d
  | _ => inl (TypeError "**" v)
  end.

(** [v + [x]] for a list literal on the right: concatenation when [v] is a
    list, a [TypeError] otherwise. *)
Definition add_list (v : value) (l : list value) : exn + list value :=
  match v with
  | VList l0 => inr (l0 ++ l)
  | _ => inl (TypeError "+" v)
  end.

(** [x or y] on an [Optional[int]] left operand: [x] when it is truthy. *)
Definition or_int (x : option Z) (y : Z) : Z :=
  match x with
  | Some n => if (n =? 0)%Z then y else n
  | None => y
  end.

(** [l[:n]] on a list: a negative bound counts from the end. *)
Definition slice_to {A} (n : Z) (l : list A) : list A :=
  if (0 <=? n)%Z then take (Z.to_nat n) l
  else take (Z.to_nat (Z.of_nat (length l) + n)) l.

End Py.
Export Py.

(** ** The environment of a call and the monad the code runs in *)

Module Effects.

(** What the loggers are given, kept structured instead of formatted. *)
Inductive log_record :=
| Starting (agent : string) (count : Z)
| Completed (agent : string) (execution_time : Q) (count : Z)
| Failing (agent : string) (execution_time : Q) (e : exn)
| Skipped (agent : string)
| Found (provider : string) (n : nat) (query : option string)
| SearchFailed (provider : string) (e : exn)
| Initialized (provider : string)
| Searching (query : string) (limit : Z).

(** The effectful steps of a run, in program order: the readings of the
    clock and of the date, the log records, the writes of [_update_status]
    into the shared state and the calls of the domain logic. *)
Inductive event :=
| EvTime (t : Q)
| EvNow (d : datetime)
| EvLog (level : string) (r : log_record)
| EvStatus (agent : string) (st : AgentStatus)
| EvExecute (agent : string).

(** Everything outside the program that a call observes: the successive
    readings of [time.time()] and of [datetime.now()], the interpreter's
    wording of its own exceptions, and the steps performed so far (oldest
    first).  Nothing is assumed of the clock. *)
Record world := World {
  time_src : nat -> Q;
  time_reads : nat;
  now_src : nat -> datetime;
  now_reads : nat;
  exn_text : exn -> string;
  trace : list event
}.

(** [str(e)] *)
Definition str_exn (w : world) (e : exn) : string :=
  match e with
  | Raised msg => msg
  | _ => exn_text w e
  end.

Definition emit (ev : event) (w : world) : world :=
  World (time_src w) (time_reads w) (now_src w) (now_reads w) (exn_text w)
        (trace w ++ [ev]).

(** [time.time()] *)
Definition read_time (w : world) : Q * world :=
  let t := time_src w (time_reads w) in
  (t, World (time_src w) (S (time_reads w)) (now_src w) (now_reads w)
            (exn_text w) (trace w ++ [EvTime t])).

(** [datetime.now()] *)
Definition read_now (w : world) : datetime * world :=
  let d := now_src w (now_reads w) in
  (d, World (time_src w) (time_reads w) (now_src w) (S (now_reads w))
            (exn_text w) (trace w ++ [EvNow d])).

(** A computation over a mutable store that returns or raises.  The store
    is threaded through a raise: what was written before an exception stays
    written, as in Python. *)
Definition M (S A : Type) : Type := S -> (exn + A) * S.

#[export] Instance M_ret {S} : MRet (M S) := fun A x s => (inr x, s).

#[export] Instance M_bind {S} : MBind (M S) := fun A B f m s =>
  match m s with
  | (inr x, s') => f x s'
  | (inl e, s') => (inl e, s')
  end.

Definition raise {S A} (e : exn) : M S A := fun s => (inl e, s).

(** [try: body except Exception as e: handler(e)] *)
Definition try_except {S A} (body : M S A) (handler : exn -> M S A) : M S A :=
  fun s =>
    match body s with
    | (inr x, s') => (inr x, s')
    | (inl e, s') => handler e s'
    end.

Definition lift {S A} (r : exn + A) : M S A := fun s => (r, s).

End Effects.
Export Effects.

(** ** [src/state/schema.py] *)

Module Schema.

(** The loop over [required_fields]: the first field that is absent from the
    state or whose value is falsy. *)
Fixpoint first_missing (state : pydict) (fields : list string) : option string :=
  match fields with
  | [] => None
  | field :: rest =>
      match state !! field with
      | None => Some field
      | Some v => if truthy v then first_missing state rest else Some field
      end
  end.

(** [validate_state(state)]: the [(is_valid, error_message)] pair, or the
    exception [len] raises on a topic that has no length. *)
Definition validate_state (state : pydict) : exn + (bool * option string) :=
  let required_fields := ["topic"] in
  match first_missing state required_fields with
  | Some field => inr (false, Some ("Missing required field: " +:+ field))
  | None =>
      match subscript state "topic" with
      | inl e => inl e
      | inr topic =>
          match py_len topic with
          | inl e => inl e
          | inr n =>
              if (n <? 3)%nat then
                inr (false, Some "Topic must be at least 3 characters long")
              else if (200 <? n)%nat then
                inr (false, Some "Topic must be less than 200 characters")
              else inr (true, None)
          end
      end
  end.

(** [create_initial_state(topic, user_requirements, target_audience, tone,
    word_count)] *)
Definition create_initial_state (topic : string) (user_requirements : option string)
    (target_audience tone : string) (word_count : Z) : M world pydict :=
  fun w =>
    let (now, w') := read_now w in
    (inr (list_to_map [
         ("topic", VStr topic);
         ("user_requirements", from_option VStr VNone user_requirements);
         ("target_audience", VStr target_audience);
         ("tone", VStr tone);
         ("word_count", VInt word_count);
         ("research_data", VList []);
         ("research_sources", VList []);
         ("research_quality", VQuality UNKNOWN);
         ("research_timestamp", VNone);
         ("blog_post", VStr "");
         ("blog_title", VNone);
         ("blog_metadata", VNone);
         ("draft_iterations", VInt 0);
         ("editor_feedback", VNone);
         ("quality_score", VNone);
         ("needs_revision", VBool false);
         ("agent_status", VDict ∅);
         ("execution_time", VDict ∅);
         ("error_log", VList []);
         ("version", VInt 1);
         ("last_modified_by", VNone);
         ("last_modified_at", VDatetime now) ] : pydict), w').

(** The keyword defaults of [create_initial_state]. *)
Definition create_initial_state_defaults (topic : string) : M world pydict :=
  create_initial_state topic None "general" "professional" 500.

End Schema.



(** ** [src/agents/base.py] *)

Module Agents.

(** [class BaseAgent(ABC)].  [execute] is the abstract method: the domain
    logic of a concrete agent, which reads the state it is handed and returns
    the dictionary of updates or raises.  It is a function of that state: it
    writes neither the state object nor the agent object in place, and the
    dictionary it returns is one of its own, not the state object, so that
    [result.update] writes the returned dictionary only. *)
Record BaseAgent := Agent {
  name : string;
  config : pydict;
  execution_count : Z;
  execute : pydict -> exn + pydict
}.

(** [BaseAgent.__init__(name, config)] with the subclass's [execute]. *)
Definition BaseAgent_init (name : string) (config : option pydict)
    (execute : pydict -> exn + pydict) : BaseAgent :=
  Agent name (default ∅ config) 0 execute.

(** The store of a call: the agent object, the state dictionary the caller
    passed (written in place by [_update_status]) and the world. *)
Record machine := Machine {
  self : BaseAgent;
  state : pydict;
  env : world
}.

Definition K := M machine.

Definition time_time : K Q := fun m =>
  let (t, w) := read_time (env m) in (inr t, Machine (self m) (state m) w).

Definition datetime_now : K datetime := fun m =>
  let (d, w) := read_now (env m) in (inr d, Machine (self m) (state m) w).

Definition step (ev : event) : K unit := fun m =>
  (inr (), Machine (self m) (state m) (emit ev (env m))).

Definition logger (level : string) (r : log_record) : K unit :=
  step (EvLog level r).

Definition get_self : K BaseAgent := fun m => (inr (self m), m).
Definition get_state : K pydict := fun m => (inr (state m), m).
Definition get_env : K world := fun m => (inr (env m), m).

Definition set_state (s : pydict) : K unit := fun m =>
  (inr (), Machine (self m) s (env m)).

(** [self.execution_count += 1] *)
Definition incr_execution_count : K unit := fun m =>
  let a := self m in
  (inr (), Machine (Agent (name a) (config a) (execution_count a + 1) (execute a))
                   (state m) (env m)).

(** [self._update_status(state, status)] *)
Definition _update_status (status : AgentStatus) : K unit :=
  a ← get_self;
  s ← get_state;
  (if bool_decide (s !! "agent_status" = None)
   then set_state (<["agent_status" := VDict ∅]> s)
   else mret ());;
  s ← get_state;
  v ← lift (subscript s "agent_status");
  match v with
  | VDict d =>
      set_state (<["agent_status" := VDict (<[name a := VStatus status]> d)]> s);;
      step (EvStatus (name a) status)
  | _ => raise (TypeError "[]=" v)
  end.

(** [self.execute(state)] *)
Definition call_execute : K pydict :=
  a ← get_self;
  s ← get_state;
  step (EvExecute (name a));;
  lift (execute a s).

(** [BaseAgent.__call__(self, state)] *)
Definition BaseAgent_call : K pydict :=
  incr_execution_count;;
  start_time ← time_time;
  a ← get_self;
  try_except
    (logger "info" (Starting (name a) (execution_count a));;
     _update_status IN_PROGRESS;;
     result ← call_execute;
     t ← time_time;
     let execution_time := (t - start_time)%Q in
     now ← datetime_now;
     s ← get_state;
     times ← lift (unpack (dict_get s "execution_time" (VDict ∅)));
     statuses ← lift (unpack (dict_get s "agent_status" (VDict ∅)));
     let result :=
       ({[ "last_modified_by" := VStr (name a);
           "last_modified_at" := VDatetime now;
           "execution_time" := VDict (<[name a := VFloat execution_time]> times);
           "agent_status" := VDict (<[name a := VStatus COMPLETED]> statuses) ]}
          : pydict) ∪ result in
     logger "info" (Completed (name a) execution_time (execution_count a));;
     mret result)
    (fun e =>
     t ← time_time;
     let execution_time := (t - start_time)%Q in
     logger "error" (Failing (name a) execution_time e);;
     w ← get_env;
     now ← datetime_now;
     let error_entry : pydict :=
       {[ "agent" := VStr (name a);
          "error" := VStr (str_exn w e);
          "timestamp" := VStr (isoformat now);
          "execution_count" := VInt (execution_count a) ]} in
     s ← get_state;
     statuses ← lift (unpack (dict_get s "agent_status" (VDict ∅)));
     errors ← lift (add_list (dict_get s "error_log" (VList [])) [VDict error_entry]);
     times ← lift (unpack (dict_get s "execution_time" (VDict ∅)));
     mret ({[ "agent_status" := VDict (<[name a := VStatus FAILED]> statuses);
              "error_log" := VList errors;
              "execution_time" := VDict (<[name a := VFloat execution_time]> times) ]}
             : pydict)).

(** [class ConditionalAgent(BaseAgent)]; [should_execute] returns [True]
    unless a subclass overrides it. *)
Record ConditionalAgent := Conditional {
  base : BaseAgent;
  should_execute : pydict -> bool
}.

Definition should_execute_default : pydict -> bool := fun _ => true.

(** [ConditionalAgent.__call__(self, state)] on the store of its base part;
    [super().__call__(state)] is [BaseAgent_call]. *)
Definition ConditionalAgent_call (should_execute : pydict -> bool) : K pydict :=
  a ← get_self;
  s ← get_state;
  if negb (should_execute s) then
    logger "info" (Skipped (name a));;
    statuses ← lift (unpack (dict_get s "agent_status" (VDict ∅)));
    mret ({[ "agent_status" := VDict (<[name a := VStatus COMPLETED]> statuses) ]}
            : pydict)
  else BaseAgent_call.

End Agents.

(** ** Reading the execution metadata of a state *)

Module Metadata.
Import Agents.

(** [state.get("agent_status", {})], [state.get("execution_time", {})] and
    [state.get("error_log", [])] on a state whose metadata has the declared
    types. *)
Definition statuses_of (s : pydict) : pydict :=
  match s !! "agent_status" with Some (VDict d) => d | _ => ∅ end.

Definition times_of (s : pydict) : pydict :=
  match s !! "execution_time" with Some (VDict d) => d | _ => ∅ end.

Definition errors_of (s : pydict) : list value :=
  match s !! "error_log" with Some (VList l) => l | _ => [] end.

Definition dict_or_absent (o : option value) : bool :=
  match o with None | Some (VDict _) => true | _ => false end.

Definition list_or_absent (o : option value) : bool :=
  match o with None | Some (VList _) => true | _ => false end.

(** The part of the [AgentState] annotation the kernel relies on:
    [agent_status] and [execution_time] are dictionaries and [error_log] is a
    list, wherever they are present. *)
Definition metadata_typed (s : pydict) : bool :=
  dict_or_absent (s !! "agent_status") &&
  dict_or_absent (s !! "execution_time") &&
  list_or_absent (s !! "error_log").

(** The state object once [_update_status] has written [status]. *)
Definition with_status (agent : string) (status : AgentStatus) (s : pydict) : pydict :=
  <["agent_status" := VDict (<[agent := VStatus status]> (statuses_of s))]> s.

(** The agent object once the call has counted itself. *)
Definition counted (a : BaseAgent) : BaseAgent :=
  Agent (name a) (config a) (execution_count a + 1) (execute a).

(** The four keys [BaseAgent.__call__] writes into a successful result. *)
Definition kernel_keys : list string :=
  ["last_modified_by"; "last_modified_at"; "execution_time"; "agent_status"].

(** The error record of a failed call. *)
Definition error_entry (agent msg timestamp : string) (count : Z) : pydict :=
  {[ "agent" := VStr agent;
     "error" := VStr msg;
     "timestamp" := VStr timestamp;
     "execution_count" := VInt count ]}.

(** The readings a call started in [w] will take. *)
Definition start_of (w : world) : Q := time_src w (time_reads w).
Definition stop_of (w : world) : Q := time_src w (S (time_reads w)).
Definition now_of (w : world) : datetime := now_src w (now_reads w).
Definition elapsed (w : world) : Q := (stop_of w - start_of w)%Q.

(** The update a successful call returns, and the world it leaves. *)
Definition success_update (a : BaseAgent) (s : pydict) (w : world) (r : pydict) : pydict :=
  ({[ "last_modified_by" := VStr (name a);
      "last_modified_at" := VDatetime (now_of w);
      "execution_time" := VDict (<[name a := VFloat (elapsed w)]> (times_of s));
      "agent_status" := VDict (<[name a := VStatus COMPLETED]> (statuses_of s)) ]}
     : pydict) ∪ r.

Definition success_trace (a : BaseAgent) (w : world) : list event :=
  [ EvTime (start_of w);
    EvLog "info" (Starting (name a) (execution_count a + 1));
    EvStatus (name a) IN_PROGRESS;
    EvExecute (name a);
    EvTime (stop_of w);
    EvNow (now_of w);
    EvLog "info" (Completed (name a) (elapsed w) (execution_count a + 1)) ].

(** The update a failed call returns, and the world it leaves. *)
Definition failure_update (a : BaseAgent) (s : pydict) (w : world) (e : exn) : pydict :=
  {[ "agent_status" := VDict (<[name a := VStatus FAILED]> (statuses_of s));
     "error_log" :=
       VList (errors_of s ++
              [VDict (error_entry (name a) (str_exn w e) (isoformat (now_of w))
                                  (execution_count a + 1))]);
     "execution_time" := VDict (<[name a := VFloat (elapsed w)]> (times_of s)) ]}.

Definition failure_trace (a : BaseAgent) (w : world) (e : exn) : list event :=
  [ EvTime (start_of w);
    EvLog "info" (Starting (name a) (execution_count a + 1));
    EvStatus (name a) IN_PROGRESS;
    EvExecute (name a);
    EvTime (stop_of w);
    EvLog "error" (Failing (name a) (elapsed w) e);
    EvNow (now_of w) ].

Definition after (w : world) (evs : list event) : world :=
  World (time_src w) (S (S (time_reads w))) (now_src w) (S (now_reads w))
        (exn_text w) (trace w ++ evs).

(** Modelled from the spec: the pipeline runner that folds a returned update
    into the shared state is not in the sources.  "The kernel folds it into
    Shared State" and "writes back a merged delta": every key of the update
    replaces the state's entry, the other entries stay. *)
Definition apply_update (s upd : pydict) : pydict := upd ∪ s.

(** Observations on a trace: the steps before the first clock reading, the
    steps after it, and the steps between the first two clock readings, which
    is the interval a call measures. *)
Fixpoint until_time (tr : list event) : list event :=
  match tr with
  | [] => []
  | EvTime _ :: _ => []
  | ev :: rest => ev :: until_time rest
  end.

Fixpoint after_time (tr : list event) : list event :=
  match tr with
  | [] => []
  | EvTime _ :: rest => rest
  | _ :: rest => after_time rest
  end.

Definition measured_span (tr : list event) : list event :=
  until_time (after_time tr).

Definition after_measurement (tr : list event) : list event :=
  after_time (after_time tr).

(** The result, the agent object, the state object and the steps of a call
    made with agent [a] on state [s] in world [w]. *)
Definition result_of_call (a : BaseAgent) (s : pydict) (w : world) : exn + pydict :=
  (BaseAgent_call (Machine a s w)).1.

Definition agent_after_call (a : BaseAgent) (s : pydict) (w : world) : BaseAgent :=
  self (BaseAgent_call (Machine a s w)).2.

Definition state_after_call (a : BaseAgent) (s : pydict) (w : world) : pydict :=
  state (BaseAgent_call (Machine a s w)).2.

Definition world_after_call (a : BaseAgent) (s : pydict) (w : world) : world :=
  env (BaseAgent_call (Machine a s w)).2.

Definition steps_of_call (a : BaseAgent) (s : pydict) (w : world) : list event :=
  drop (length (trace w)) (trace (world_after_call a s w)).

(** The rule of the data model that the execution metadata is written by the
    kernel only, for the error log: the map the domain logic returns on this
    state has no [error_log] entry. *)
Definition leaves_error_log (a : BaseAgent) (s : pydict) : Prop :=
  match execute a (with_status (name a) IN_PROGRESS s) with
  | inr r => r !! "error_log" = None
  | inl _ => True
  end.

(** Computations that leave the agent object as it is. *)
Definition keeps_self {A} (k : K A) : Prop := forall m, self (k m).2 = self m.

(** A call of a conditional agent on state [s] in world [w], run on the
    store of its base part. *)
Definition conditional_call (c : ConditionalAgent) (s : pydict) (w : world)
    : (exn + pydict) * machine :=
  ConditionalAgent_call (should_execute c) (Machine (base c) s w).

(** The domain logic, run on the state object as the kernel hands it over. *)
Definition domain_logic (a : BaseAgent) (s : pydict) : exn + pydict :=
  execute a (with_status (name a) IN_PROGRESS s).

End Metadata.

(** ** [src/tools/search.py] *)

Module Search.

(** The search code logs and may raise; its store is the list of steps
    performed so far. *)
Definition T := M (list event).

Definition log (level : string) (r : log_record) : T unit :=
  fun tr => (inr (), tr ++ [EvLog level r]).

(** What [DDGS().text(query, max_results=n)] does when it is iterated: the
    items it yields, then the exception that ends the iteration, if any.  An
    exception raised by [DDGS()] or before the first item has no items. *)
Definition ddgs_client := string -> Z -> list value * option exn.

(** A [requests] response: its status code and what [response.json()]
    returns or raises. *)
Record response := Response {
  status_code : Z;
  json : exn + value
}.

(** [session.post(url, json=payload, headers=headers, timeout=timeout)];
    [headers] is [None] when the keyword is not given. *)
Definition http_session :=
  string -> pydict -> option (gmap string string) -> Z -> exn + response.

(** [response.raise_for_status()] *)
Definition raise_for_status (r : response) : T unit :=
  if ((400 <=? status_code r) && (status_code r <? 600))%Z
  then raise (HTTPError (status_code r))
  else mret ().

(** What [session.post], [raise_for_status] and [response.json] make of a
    request: the decoded body, or the exception one of the three raised. *)
Definition fetched (session : http_session) (url : string) (payload : pydict)
    (headers : option (gmap string string)) (timeout : Z) : exn + value :=
  match session url payload headers timeout with
  | inl e => inl e
  | inr response =>
      if ((400 <=? status_code response) && (status_code response <? 600))%Z
      then inl (HTTPError (status_code response))
      else json response
  end.

(** [v.get(key, default)]; only dictionaries have the method. *)
Definition get_method (v : value) (key : string) (default : value) : exn + value :=
  match v with
  | VDict d => inr (dict_get d key default)
  | _ => inl (AttributeError v "get")
  end.

Definition chars (s : string) : list value :=
  map (fun c => VStr (String c EmptyString)) (String.list_ascii_of_string s).

(** The items [for item in v[:n]] visits: those of a list, the characters of
    a string; every other value cannot be sliced (the exception is a
    [KeyError] instead for a dictionary on recent interpreters). *)
Definition sliced_items (v : value) (n : Z) : exn + list value :=
  match v with
  | VList l => inr (slice_to n l)
  | VStr s => inr (slice_to n (chars s))
  | VStatus st => inr (slice_to n (chars (status_value st)))
  | VQuality q => inr (slice_to n (chars (quality_value q)))
  | _ => inl (TypeError "[:]" v)
  end.

(** One pass of a result loop: the record built from [item], with the
    provider's own field names for the link and the snippet. *)
Definition result_of (link_key snippet_key : string) (item : value) : exn + value :=
  match get_method item "title" (VStr "") with
  | inl e => inl e
  | inr title =>
      match get_method item link_key (VStr "") with
      | inl e => inl e
      | inr link =>
          match get_method item snippet_key (VStr "") with
          | inl e => inl e
          | inr snippet =>
              inr (VDict {[ "title" := title; "link" := link; "snippet" := snippet ]})
          end
      end
  end.

(** [for item in items: results.append(...)], starting from [results]. *)
Fixpoint collect (link_key snippet_key : string) (items : list value)
    (results : list value) : exn + list value :=
  match items with
  | [] => inr results
  | item :: rest =>
      match result_of link_key snippet_key item with
      | inl e => inl e
      | inr r => collect link_key snippet_key rest (results ++ [r])
      end
  end.

(** The [except Exception as e] block the three providers share: log the
    failure and return the empty list. *)
Definition absorb (provider : string) (e : exn) : T (list value) :=
  log "error" (SearchFailed provider e);;
  mret [].

(** [class DuckDuckGoSearch(SearchProvider)] *)
Record DuckDuckGoSearch := DuckDuckGo {
  ddg_timeout : Z;
  ddgs : ddgs_client
}.

(** The [try] block of [DuckDuckGoSearch.search]. *)
Definition DuckDuckGoSearch_try (self : DuckDuckGoSearch) (query : string)
    (max_results : Z) : T (list value) :=
  let (items, failure) := ddgs self query max_results in
  results ← lift (collect "href" "body" items []);
  match failure with
  | Some e => raise e
  | None =>
      log "info" (Found "duckduckgo" (length results) (Some query));;
      mret results
  end.

Definition DuckDuckGoSearch_search (self : DuckDuckGoSearch) (query : string)
    (max_results : Z) : T (list value) :=
  try_except (DuckDuckGoSearch_try self query max_results) (absorb "duckduckgo").

(** [class SerperSearch(SearchProvider)] *)
Record SerperSearch := Serper {
  serper_api_key : string;
  serper_timeout : Z;
  serper_base_url : string;
  serper_session : http_session
}.

(** The [try] block of [SerperSearch.search]. *)
Definition SerperSearch_try (self : SerperSearch) (query : string)
    (max_results : Z) : T (list value) :=
  let headers : gmap string string :=
    {[ "X-API-KEY" := serper_api_key self;
       "Content-Type" := "application/json" ]} in
  let payload : pydict :=
    {[ "q" := VStr query; "num" := VInt max_results ]} in
  response ← lift (serper_session self (serper_base_url self) payload
                     (Some headers) (serper_timeout self));
  raise_for_status response;;
  data ← lift (json response);
  organic ← lift (get_method data "organic" (VList []));
  items ← lift (sliced_items organic max_results);
  results ← lift (collect "link" "snippet" items []);
  log "info" (Found "serper" (length results) None);;
  mret results.

Definition SerperSearch_search (self : SerperSearch) (query : string)
    (max_results : Z) : T (list value) :=
  try_except (SerperSearch_try self query max_results) (absorb "serper").

(** [class TavilySearch(SearchProvider)] *)
Record TavilySearch := Tavily {
  tavily_api_key : string;
  tavily_timeout : Z;
  tavily_base_url : string;
  tavily_session : http_session
}.

(** The [try] block of [TavilySearch.search]. *)
Definition TavilySearch_try (self : TavilySearch) (query : string)
    (max_results : Z) : T (list value) :=
  let payload : pydict :=
    {[ "api_key" := VStr (tavily_api_key self);
       "query" := VStr query;
       "max_results" := VInt max_results;
       "search_depth" := VStr "advanced" ]} in
  response ← lift (tavily_session self (tavily_base_url self) payload
                     None (tavily_timeout self));
  raise_for_status response;;
  data ← lift (json response);
  found ← lift (get_method data "results" (VList []));
  items ← lift (sliced_items found max_results);
  results ← lift (collect "url" "content" items []);
  log "info" (Found "tavily" (length results) None);;
  mret results.

Definition TavilySearch_search (self : TavilySearch) (query : string)
    (max_results : Z) : T (list value) :=
  try_except (TavilySearch_try self query max_results) (absorb "tavily").

(** The implementations of [SearchProvider.search]. *)
Inductive SearchProvider :=
| UseDuckDuckGo (p : DuckDuckGoSearch)
| UseSerper (p : SerperSearch)
| UseTavily (p : TavilySearch).

Definition provider_search (p : SearchProvider) (query : string)
    (max_results : Z) : T (list value) :=
  match p with
  | UseDuckDuckGo d => DuckDuckGoSearch_search d query max_results
  | UseSerper d => SerperSearch_search d query max_results
  | UseTavily d => TavilySearch_search d query max_results
  end.

(** The [try] block of the provider's [search]. *)
Definition provider_try (p : SearchProvider) (query : string)
    (max_results : Z) : T (list value) :=
  match p with
  | UseDuckDuckGo d => DuckDuckGoSearch_try d query max_results
  | UseSerper d => SerperSearch_try d query max_results
  | UseTavily d => TavilySearch_try d query max_results
  end.

Definition provider_name (p : SearchProvider) : string :=
  match p with
  | UseDuckDuckGo _ => "duckduckgo"
  | UseSerper _ => "serper"
  | UseTavily _ => "tavily"
  end.

(** What the constructors take from outside the module: whether the
    [duckduckgo_search] import succeeded, its client, and the session
    [requests.Session()] creates. *)
Record libraries := Libraries {
  DUCKDUCKGO_AVAILABLE : bool;
  DDGS : ddgs_client;
  Session : http_session
}.

(** [class SearchTool] *)
Record SearchTool := Tool {
  max_results : Z;
  provider : SearchProvider
}.

(** [if not api_key] on an [Optional[str]] *)
Definition no_key (api_key : option string) : bool :=
  match api_key with
  | None => true
  | Some k => String.eqb k ""
  end.

(** [SearchTool.__init__(provider, max_results, timeout, api_key)] *)
Definition SearchTool_init (lib : libraries) (provider : string) (max_results : Z)
    (timeout : Z) (api_key : option string) : T SearchTool :=
  p ← (if String.eqb provider "duckduckgo" then
         if DUCKDUCKGO_AVAILABLE lib
         then mret (UseDuckDuckGo (DuckDuckGo timeout (DDGS lib)))
         else raise (Raised ("duckduckgo-search not installed. " +:+
                             "Install with: pip install duckduckgo-search"))
       else if String.eqb provider "serper" then
         if no_key api_key then raise (Raised "Serper requires API key")
         else mret (UseSerper (Serper (default "" api_key) timeout
                                      "https://google.serper.dev/search" (Session lib)))
       else if String.eqb provider "tavily" then
         if no_key api_key then raise (Raised "Tavily requires API key")
         else mret (UseTavily (Tavily (default "" api_key) timeout
                                      "https://api.tavily.com/search" (Session lib)))
       else raise (Raised ("Unknown search provider: " +:+ provider)));
  log "info" (Initialized provider);;
  mret (Tool max_results p).

(** [SearchTool.search(query, max_results=None)] *)
Definition SearchTool_search (self : SearchTool) (query : string)
    (override : option Z) : T (list value) :=
  let results_limit := or_int override (max_results self) in
  log "debug" (Searching query results_limit);;
  results ← provider_search (provider self) query results_limit;
  mret results.

End Search.

(** ** Concrete agents, states and worlds *)

Module Examples.
Import Agents Metadata Search.

(** A world whose clock reads 0, 1, 2, ... seconds. *)
Definition ticking : world :=
  World (fun n => inject_Z (Z.of_nat n)) 0
        (fun _ => Datetime "2024-05-01T12:00:00") 0
        (fun _ => "interpreter error") [].

Definition writer : BaseAgent :=
  BaseAgent_init "Writer" None (fun _ => inr {[ "draft" := VStr "hello" ]}).

Definition researcher : BaseAgent :=
  BaseAgent_init "Researcher" None (fun _ => inl (Raised "boom")).

(** An agent whose returned map names a field the kernel writes. *)
Definition editor : BaseAgent :=
  BaseAgent_init "Editor" None
    (fun _ => inr {[ "last_modified_by" := VStr "somebody else";
                     "version" := VInt 0 ]}).

Definition earlier_entry : pydict :=
  error_entry "Researcher" "timeout" "2024-05-01T11:59:00" 1.

(** A state in which both agents ran before. *)
Definition rerun_state : pydict :=
  {[ "topic" := VStr "proof assistants";
     "agent_status" := VDict {[ "Writer" := VStatus COMPLETED;
                                "Researcher" := VStatus FAILED ]};
     "execution_time" := VDict {[ "Writer" := VFloat 2;
                                  "Researcher" := VFloat 3 ]};
     "error_log" := VList [VDict earlier_entry];
     "version" := VInt 1 ]}.

(** A conditional agent that never runs. *)
Definition gated : ConditionalAgent :=
  Conditional writer (fun _ => false).

(** A session whose endpoint cannot be reached. *)
Definition unreachable : http_session :=
  fun _ _ _ _ => inl (Raised "connection refused").

(** A client that yields as many results as it is asked for, up to three. *)
Definition three_hits : ddgs_client :=
  fun _ n =>
    (slice_to n [VDict {[ "title" := VStr "a" ]};
                 VDict {[ "title" := VStr "b" ]};
                 VDict {[ "title" := VStr "c" ]}], None).

Fixpoint repeat_char (n : nat) : string :=
  match n with
  | O => EmptyString
  | S n' => "x" +:+ repeat_char n'
  end.

End Examples.

(** ** The helpers of [BaseAgent] *)

Module AgentHelpers.
Import Agents Metadata.

(** [BaseAgent.validate_input(state, required_fields)]: the first field that
    is absent from the state or is [None] is reported. *)
Fixpoint validate_input (state : pydict) (required_fields : list string)
    : bool * option string :=
  match required_fields with
  | [] => (true, None)
  | field :: rest =>
      match state !! field with
      | None | Some VNone => (false, Some ("Missing required field: " +:+ field))
      | Some _ => validate_input state rest
      end
  end.

(** [BaseAgent.get_config(key, default)] *)
Definition get_config (self : BaseAgent) (key : string) (default : value) : value :=
  dict_get (config self) key default.

(** A field counts for [validate_input] when it is there and is not [None]. *)
Definition provided (state : pydict) (field : string) : bool :=
  match state !! field with
  | None | Some VNone => false
  | Some _ => true
  end.

(** The agent object after the calls made one after the other on the given
    states and worlds. *)
Fixpoint agent_after_calls (a : BaseAgent) (inputs : list (pydict * world)) : BaseAgent :=
  match inputs with
  | [] => a
  | (s, w) :: rest => agent_after_calls (agent_after_call a s w) rest
  end.

End AgentHelpers.

(** ** [src/config/settings.py] *)

Module Config.
Import Search.

(** [class Settings(BaseSettings)], field by field. *)
Record Settings := {
  llm_provider : string;
  llm_model : string;
  llm_temperature : Q;
  llm_max_tokens : Z;
  openai_api_key : option string;
  ollama_base_url : string;
  search_provider : string;
  search_max_results : Z;
  search_timeout : Z;
  serper_api_key : option string;
  tavily_api_key : option string;
  app_name : string;
  app_version : string;
  environment : string;
  log_level : string;
  log_file : string;
  log_format : string;
  api_host : string;
  api_port : Z;
  api_reload : bool;
  api_workers : Z;
  cors_origins : list string;
  cors_allow_credentials : bool;
  rate_limit_enabled : bool;
  rate_limit_requests : Z;
  rate_limit_period : Z;
  researcher_retries : Z;
  writer_min_words : Z;
  editor_enabled : bool;
  cache_enabled : bool;
  cache_ttl : Z;
  cache_max_size : Z;
  max_concurrent_agents : Z;
  agent_timeout : Z;
  database_url : option string;
  sentry_dsn : option string;
  prometheus_enabled : bool
}.

(** [v not in allowed] on a list of strings *)
Definition allowed_in (v : string) (allowed : list string) : bool :=
  existsb (String.eqb v) allowed.

Definition llm_providers : list string := ["ollama"; "openai"].
Definition search_providers : list string := ["duckduckgo"; "serper"; "tavily"].
Definition environments : list string := ["development"; "staging"; "production"].
Definition log_levels : list string := ["DEBUG"; "INFO"; "WARNING"; "ERROR"; "CRITICAL"].

(** [Settings.validate_llm_provider(v)] *)
Definition validate_llm_provider (v : string) : exn + string :=
  if allowed_in v llm_providers then inr v
  else inl (Raised "LLM provider must be one of ['ollama', 'openai']").

(** [Settings.validate_search_provider(v)] *)
Definition validate_search_provider (v : string) : exn + string :=
  if allowed_in v search_providers then inr v
  else inl (Raised "Search provider must be one of ['duckduckgo', 'serper', 'tavily']").

(** [Settings.validate_environment(v)] *)
Definition validate_environment (v : string) : exn + string :=
  if allowed_in v environments then inr v
  else inl (Raised "Environment must be one of ['development', 'staging', 'production']").

(** [Settings.validate_log_level(v)]; [upper] is [str.upper]. *)
Definition validate_log_level (upper : string -> string) (v : string) : exn + string :=
  let v_upper := upper v in
  if allowed_in v_upper log_levels then inr v_upper
  else inl (Raised
    "Log level must be one of ['DEBUG', 'INFO', 'WARNING', 'ERROR', 'CRITICAL']").

(** [Settings.validate_api_keys(self)] *)
Definition validate_api_keys (self : Settings) : list string :=
  let missing := [] in
  let missing :=
    if String.eqb (llm_provider self) "openai" && no_key (openai_api_key self)
    then missing ++ ["OPENAI_API_KEY"] else missing in
  let missing :=
    if String.eqb (search_provider self) "serper" && no_key (serper_api_key self)
    then missing ++ ["SERPER_API_KEY"] else missing in
  let missing :=
    if String.eqb (search_provider self) "tavily" && no_key (tavily_api_key self)
    then missing ++ ["TAVILY_API_KEY"] else missing in
  missing.

(** [sep.join(l)] *)
Fixpoint join (sep : string) (l : list string) : string :=
  match l with
  | [] => ""
  | [x] => x
  | x :: rest => x +:+ sep +:+ join sep rest
  end.

(** What the module takes from outside: what [Settings()] makes of the
    environment variables (the instance, or the validation error),
    [os.path.dirname], [os.makedirs(path, exist_ok=True)] on the set of
    existing paths, and the interpreter's wording of exceptions. *)
Record platform := Platform {
  load : gmap string string -> exn + Settings;
  dirname : string -> string;
  makedirs : string -> gset string -> exn + gset string;
  wording : exn -> string
}.

(** The store: the cache of [get_settings], the environment variables and
    the paths that exist. *)
Record process := Process {
  cached : option Settings;
  environ : gmap string string;
  paths : gset string
}.

Definition C := M process.

(** [get_settings()] under [@lru_cache()]: the instance is built on the
    first call that succeeds and returned from then on; a call that raises
    caches nothing. *)
Definition get_settings (pf : platform) : C Settings := fun p =>
  match cached p with
  | Some settings => (inr settings, p)
  | None =>
      match load pf (environ p) with
      | inr settings => (inr settings, Process (Some settings) (environ p) (paths p))
      | inl e => (inl e, p)
      end
  end.

(** [os.path.exists(path)] *)
Definition path_exists (path : string) : C bool := fun p =>
  (inr (bool_decide (path ∈ paths p)), p).

(** [os.makedirs(path, exist_ok=True)] *)
Definition os_makedirs (pf : platform) (path : string) : C unit := fun p =>
  match makedirs pf path (paths p) with
  | inr paths' => (inr (), Process (cached p) (environ p) paths')
  | inl e => (inl e, p)
  end.

(** [str(e)] *)
Definition text_of (pf : platform) (e : exn) : string :=
  match e with
  | Raised msg => msg
  | _ => wording pf e
  end.

(** [validate_configuration()] *)
Definition validate_configuration (pf : platform) : C (bool * option string) :=
  try_except
    (settings ← get_settings pf;
     let missing_keys := validate_api_keys settings in
     if negb (bool_decide (missing_keys = [])) then
       mret (false, Some ("Missing required API keys: " +:+ join ", " missing_keys))
     else
       let log_dir := dirname pf (log_file settings) in
       (if negb (String.eqb log_dir "") then
          there ← path_exists log_dir;
          if negb there then os_makedirs pf log_dir else mret ()
        else mret ());;
       mret (true, None))
    (fun e => mret (false, Some ("Configuration error: " +:+ text_of pf e))).

Definition opt_str (o : option string) : value := from_option VStr VNone o.

(** [get_llm_config()] *)
Definition get_llm_config (pf : platform) : C pydict :=
  settings ← get_settings pf;
  mret ({[ "provider" := VStr (llm_provider settings);
           "model" := VStr (llm_model settings);
           "temperature" := VFloat (llm_temperature settings);
           "max_tokens" := VInt (llm_max_tokens settings);
           "api_key" := opt_str (openai_api_key settings);
           "base_url" := VStr (ollama_base_url settings) ]} : pydict).

(** [get_search_config()] *)
Definition get_search_config (pf : platform) : C pydict :=
  settings ← get_settings pf;
  mret ({[ "provider" := VStr (search_provider settings);
           "max_results" := VInt (search_max_results settings);
           "timeout" := VInt (search_timeout settings);
           "serper_api_key" := opt_str (serper_api_key settings);
           "tavily_api_key" := opt_str (tavily_api_key settings) ]} : pydict).

(** The key [SearchTool] needs for the provider the settings name. *)
Definition key_for (self : Settings) : option string :=
  if String.eqb (search_provider self) "serper" then serper_api_key self
  else if String.eqb (search_provider self) "tavily" then tavily_api_key self
  else None.

End Config.

(** ** Predicates used to state the further properties *)

Module Observations.
Import Agents Metadata Search.

(** The values [len] refuses. *)
Definition unsized (v : value) : bool :=
  match v with
  | VNone | VBool _ | VInt _ | VFloat _ | VDatetime _ => true
  | _ => false
  end.

(** The call returned an update. *)
Definition returns (r : exn + pydict) : bool :=
  match r with inr _ => true | inl _ => false end.

(** The domain logic returns on the state as the kernel hands it over. *)
Definition succeeds (a : BaseAgent) (s : pydict) : bool :=
  match execute a (with_status (name a) IN_PROGRESS s) with
  | inr _ => true
  | inl _ => false
  end.

(** A result record as the providers build it. *)
Definition record (title link snippet : value) : value :=
  VDict {[ "title" := title; "link" := link; "snippet" := snippet ]}.

(** The record a provider builds from a dictionary item. *)
Definition normalized (link_key snippet_key : string) (item : pydict) : value :=
  record (dict_get item "title" (VStr ""))
         (dict_get item link_key (VStr ""))
         (dict_get item snippet_key (VStr "")).

Definition is_dict (v : value) : bool :=
  match v with VDict _ => true | _ => false end.

Definition as_dict (v : value) : pydict :=
  match v with VDict d => d | _ => ∅ end.

(** The rest of a keyed provider's [try] block once the body is decoded. *)
Definition digest (provider list_key link_key snippet_key : string) (data : value)
    (n : Z) (tr : list event) : (exn + list value) * list event :=
  match get_method data list_key (VList []) with
  | inl e => (inl e, tr)
  | inr hits =>
      match sliced_items hits n with
      | inl e => (inl e, tr)
      | inr items =>
          match collect link_key snippet_key items [] with
          | inl e => (inl e, tr)
          | inr results =>
              (inr results, tr ++ [EvLog "info" (Found provider (length results) None)])
          end
      end
  end.

End Observations.

(** ** More concrete objects *)

Module MoreExamples.
Import Agents Metadata Search Config Examples.

(** A session that answers 200 with two organic hits. *)
Definition two_hits : http_session :=
  fun _ _ _ _ =>
    inr (Response 200
           (inr (VDict {[ "organic" :=
                            VList [VDict {[ "title" := VStr "a"; "link" := VStr "u" ]};
                                   VDict {[ "title" := VStr "b" ]}] ]}))).

(** A session that answers 200 with a body that has no hits at all. *)
Definition no_hits : http_session :=
  fun _ _ _ _ => inr (Response 200 (inr (VDict {[ "credits" := VInt 1 ]}))).

Definition serper_two : SerperSearch :=
  Serper "key" 10 "https://google.serper.dev/search" two_hits.

Definition serper_none : SerperSearch :=
  Serper "key" 10 "https://google.serper.dev/search" no_hits.

Definition installed : libraries := Libraries true three_hits two_hits.

(** The defaults of the fields of [Settings]. *)
Definition defaults : Settings :=
  {| llm_provider := "ollama";
     llm_model := "llama3";
     llm_temperature := 7 # 10;
     llm_max_tokens := 2000;
     openai_api_key := None;
     ollama_base_url := "http://localhost:11434";
     search_provider := "duckduckgo";
     search_max_results := 5;
     search_timeout := 10;
     serper_api_key := None;
     tavily_api_key := None;
     app_name := "Multi-Agent Blog Generator";
     app_version := "1.0.0";
     environment := "development";
     log_level := "INFO";
     log_file := "logs/app.log";
     log_format := "json";
     api_host := "0.0.0.0";
     api_port := 8000;
     api_reload := true;
     api_workers := 1;
     cors_origins := ["http://localhost:3000"];
     cors_allow_credentials := true;
     rate_limit_enabled := true;
     rate_limit_requests := 100;
     rate_limit_period := 3600;
     researcher_retries := 3;
     writer_min_words := 300;
     editor_enabled := true;
     cache_enabled := true;
     cache_ttl := 3600;
     cache_max_size := 1000;
     max_concurrent_agents := 5;
     agent_timeout := 300;
     database_url := Some "sqlite:///./data/app.db";
     sentry_dsn := None;
     prometheus_enabled := false |}.

(** The defaults with another search provider and its key. *)
Definition with_search (provider : string) (serper tavily : option string) : Settings :=
  {| llm_provider := llm_provider defaults;
     llm_model := llm_model defaults;
     llm_temperature := llm_temperature defaults;
     llm_max_tokens := llm_max_tokens defaults;
     openai_api_key := openai_api_key defaults;
     ollama_base_url := ollama_base_url defaults;
     search_provider := provider;
     search_max_results := search_max_results defaults;
     search_timeout := search_timeout defaults;
     serper_api_key := serper;
     tavily_api_key := tavily;
     app_name := app_name defaults;
     app_version := app_version defaults;
     environment := environment defaults;
     log_level := log_level defaults;
     log_file := log_file defaults;
     log_format := log_format defaults;
     api_host := api_host defaults;
     api_port := api_port defaults;
     api_reload := api_reload defaults;
     api_workers := api_workers defaults;
     cors_origins := cors_origins defaults;
     cors_allow_credentials := cors_allow_credentials defaults;
     rate_limit_enabled := rate_limit_enabled defaults;
     rate_limit_requests := rate_limit_requests defaults;
     rate_limit_period := rate_limit_period defaults;
     researcher_retries := researcher_retries defaults;
     writer_min_words := writer_min_words defaults;
     editor_enabled := editor_enabled defaults;
     cache_enabled := cache_enabled defaults;
     cache_ttl := cache_ttl defaults;
     cache_max_size := cache_max_size defaults;
     max_concurrent_agents := max_concurrent_agents defaults;
     agent_timeout := agent_timeout defaults;
     database_url := database_url defaults;
     sentry_dsn := sentry_dsn defaults;
     prometheus_enabled := prometheus_enabled defaults |}.

(** A platform on which the settings are the defaults unless the variable
    [SEARCH_PROVIDER] is set, directories can always be made, and the
    directory of a path is [logs]. *)
Definition plain : platform :=
  Platform
    (fun vars => match vars !! "SEARCH_PROVIDER" with
                 | None => inr defaults
                 | Some p => inr (with_search p None None)
                 end)
    (fun _ => "logs")
    (fun path existing => inr ({[ path ]} ∪ existing))
    (fun _ => "interpreter error").


(** An agent whose returned map carries an [error_log] of its own. *)
Definition wiper : BaseAgent :=
  BaseAgent_init "Wiper" None (fun _ => inr {[ "error_log" := VList [] ]}).

(** Upper-casing of the letters a to z, the other characters kept. *)
Definition upper_ascii (c : Ascii.ascii) : Ascii.ascii :=
  let n := Ascii.nat_of_ascii c in
  if ((97 <=? n) && (n <=? 122))%nat then Ascii.ascii_of_nat (n - 32) else c.

Fixpoint upper_letters (s : string) : string :=
  match s with
  | EmptyString => EmptyString
  | String c rest => String (upper_ascii c) (upper_letters rest)
  end.

End MoreExamples.

Module KernelFacts.
Import Agents Metadata.

Lemma typed_inv s :
  metadata_typed s = true ->
  dict_get s "execution_time" (VDict ∅) = VDict (times_of s) /\
  dict_get s "error_log" (VList []) = VList (errors_of s).
Proof.
  unfold metadata_typed, times_of, errors_of, dict_get.
  intros H. apply andb_prop in H as [H H3]. apply andb_prop in H as [_ H2].
  destruct (s !! "execution_time") as [[]|]; try discriminate;
  destruct (s !! "error_log") as [[]|]; try discriminate; auto.
Qed.

Ltac run :=
  unfold mbind, M_bind, mret, M_ret, incr_execution_count, time_time,
    datetime_now, get_self, get_state, get_env, set_state, step, logger, lift,
    raise, read_time, read_now, emit; cbn.

Lemma update_status_typed a s w st :
  dict_or_absent (s !! "agent_status") = true ->
  _update_status st (Machine a s w) =
    (inr (), Machine a (with_status (name a) st s) (emit (EvStatus (name a) st) w)).
Proof.
  intros Ht. unfold _update_status, with_status, statuses_of, subscript. run.
  destruct (s !! "agent_status") as [v|] eqn:Hs.
  - rewrite bool_decide_eq_false_2 by discriminate. cbn. rewrite Hs.
    destruct v; try discriminate. reflexivity.
  - rewrite bool_decide_eq_true_2 by reflexivity. cbn.
    rewrite lookup_insert_eq. cbn. rewrite insert_insert_eq. reflexivity.
Qed.

Lemma typed_agent_status s :
  metadata_typed s = true -> dict_or_absent (s !! "agent_status") = true.
Proof.
  unfold metadata_typed. intros H.
  apply andb_prop in H as [H _]. apply andb_prop in H as [H _]. exact H.
Qed.

Lemma with_status_get agent st s :
  dict_get (with_status agent st s) "agent_status" (VDict ∅) =
    VDict (<[agent := VStatus st]> (statuses_of s)) /\
  dict_get (with_status agent st s) "execution_time" (VDict ∅) =
    dict_get s "execution_time" (VDict ∅) /\
  dict_get (with_status agent st s) "error_log" (VList []) =
    dict_get s "error_log" (VList []).
Proof.
  unfold dict_get, with_status.
  rewrite lookup_insert_eq, !lookup_insert_ne by discriminate. auto.
Qed.

Lemma call_success a s w r :
  metadata_typed s = true ->
  execute a (with_status (name a) IN_PROGRESS s) = inr r ->
  BaseAgent_call (Machine a s w) =
    (inr (success_update a s w r),
     Machine (counted a) (with_status (name a) IN_PROGRESS s)
             (after w (success_trace a w))).
Proof.
  intros Ht Hr.
  destruct (typed_inv s Ht) as (Htimes & _).
  destruct (with_status_get (name a) IN_PROGRESS s) as (Hg1 & Hg2 & _).
  unfold BaseAgent_call, try_except, call_execute. run.
  rewrite update_status_typed by (apply typed_agent_status, Ht).
  cbn. rewrite Hr, Hg2, Htimes, Hg1. cbn.
  rewrite insert_insert_eq.
  unfold success_update, after, success_trace, counted, elapsed, stop_of,
    start_of, now_of, emit.
  cbn. rewrite <- !app_assoc. reflexivity.
Qed.

Lemma call_failure a s w e :
  metadata_typed s = true ->
  execute a (with_status (name a) IN_PROGRESS s) = inl e ->
  BaseAgent_call (Machine a s w) =
    (inr (failure_update a s w e),
     Machine (counted a) (with_status (name a) IN_PROGRESS s)
             (after w (failure_trace a w e))).
Proof.
  intros Ht Hr.
  destruct (typed_inv s Ht) as (Htimes & Herr).
  destruct (with_status_get (name a) IN_PROGRESS s) as (Hg1 & Hg2 & Hg3).
  unfold BaseAgent_call, try_except, call_execute. run.
  rewrite update_status_typed by (apply typed_agent_status, Ht).
  cbn. rewrite Hr. cbn. rewrite Hg1, Hg2, Hg3, Htimes, Herr. cbn.
  rewrite insert_insert_eq.
  unfold failure_update, after, failure_trace, counted, elapsed, stop_of,
    start_of, now_of, emit, error_entry, str_exn.
  cbn. rewrite <- !app_assoc. reflexivity.
Qed.

Lemma success_update_other a s w r k :
  k ∉ kernel_keys -> success_update a s w r !! k = r !! k.
Proof.
  unfold kernel_keys, success_update. intros Hk.
  repeat (apply not_elem_of_cons in Hk as [? Hk]).
  apply lookup_union_r.
  rewrite !lookup_insert_ne by congruence. apply lookup_singleton_ne. congruence.
Qed.

Lemma success_update_kernel a s w r :
  success_update a s w r !! "last_modified_by" = Some (VStr (name a)) /\
  success_update a s w r !! "last_modified_at" = Some (VDatetime (now_of w)) /\
  success_update a s w r !! "execution_time" =
    Some (VDict (<[name a := VFloat (elapsed w)]> (times_of s))) /\
  success_update a s w r !! "agent_status" =
    Some (VDict (<[name a := VStatus COMPLETED]> (statuses_of s))).
Proof.
  unfold success_update. repeat split; apply lookup_union_Some_l; reflexivity.
Qed.

Lemma failure_update_lookup a s w e :
  failure_update a s w e !! "agent_status" =
    Some (VDict (<[name a := VStatus FAILED]> (statuses_of s))) /\
  failure_update a s w e !! "error_log" =
    Some (VList (errors_of s ++
                 [VDict (error_entry (name a) (str_exn w e) (isoformat (now_of w))
                                     (execution_count a + 1))])) /\
  failure_update a s w e !! "execution_time" =
    Some (VDict (<[name a := VFloat (elapsed w)]> (times_of s))) /\
  (forall k, k ∉ ["agent_status"; "error_log"; "execution_time"] ->
             failure_update a s w e !! k = None).
Proof.
  unfold failure_update. repeat split.
  intros k Hk. repeat (apply not_elem_of_cons in Hk as [? Hk]).
  rewrite !lookup_insert_ne by congruence. apply lookup_singleton_ne. congruence.
Qed.

Lemma elapsed_nonneg w : (start_of w <= stop_of w)%Q -> (0 <= elapsed w)%Q.
Proof. unfold elapsed. intros H. lra. Qed.

Lemma keeps_self_bind {A B} (k : K A) (f : A -> K B) :
  keeps_self k -> (forall x, keeps_self (f x)) -> keeps_self (k ≫= f).
Proof.
  intros Hk Hf m. unfold mbind, M_bind. specialize (Hk m).
  destruct (k m) as [[e|x] m1]; cbn in *; [assumption |].
  rewrite Hf. assumption.
Qed.

Lemma keeps_self_try {A} (k : K A) (h : exn -> K A) :
  keeps_self k -> (forall e, keeps_self (h e)) -> keeps_self (try_except k h).
Proof.
  intros Hk Hh m. unfold try_except. specialize (Hk m).
  destruct (k m) as [[e|x] m1]; cbn in *; [| assumption].
  rewrite Hh. assumption.
Qed.

Lemma keeps_self_ret {A} (x : A) : keeps_self (mret x : K A).
Proof. intros m. reflexivity. Qed.

Lemma keeps_self_lift {A} (r : exn + A) : keeps_self (lift r : K A).
Proof. intros m. reflexivity. Qed.

Lemma keeps_self_raise {A} (e : exn) : keeps_self (raise e : K A).
Proof. intros m. reflexivity. Qed.

Lemma keeps_self_time : keeps_self time_time.
Proof. intros m. reflexivity. Qed.

Lemma keeps_self_now : keeps_self datetime_now.
Proof. intros m. reflexivity. Qed.

Lemma keeps_self_step ev : keeps_self (step ev).
Proof. intros m. reflexivity. Qed.

Lemma keeps_self_logger level r : keeps_self (logger level r).
Proof. intros m. reflexivity. Qed.

Lemma keeps_self_get_self : keeps_self get_self.
Proof. intros m. reflexivity. Qed.

Lemma keeps_self_get_state : keeps_self get_state.
Proof. intros m. reflexivity. Qed.

Lemma keeps_self_get_env : keeps_self get_env.
Proof. intros m. reflexivity. Qed.

Lemma keeps_self_set_state s : keeps_self (set_state s).
Proof. intros m. reflexivity. Qed.

Create HintDb keeps.
#[export] Hint Resolve keeps_self_ret keeps_self_lift keeps_self_raise
  keeps_self_time keeps_self_now keeps_self_step keeps_self_logger
  keeps_self_get_self keeps_self_get_state keeps_self_get_env
  keeps_self_set_state : keeps.

Ltac keeps :=
  repeat (first [ apply keeps_self_bind; [| intros ?]
                | apply keeps_self_try; [| intros ?]
                | solve [auto with keeps]
                | match goal with
                  | |- keeps_self (if ?b then _ else _) => destruct b
                  | |- keeps_self (match ?v with _ => _ end) => destruct v
                  end ]).

Lemma keeps_self_update_status st : keeps_self (_update_status st).
Proof. unfold _update_status. keeps. Qed.

Lemma keeps_self_call_execute : keeps_self call_execute.
Proof. unfold call_execute. keeps. Qed.

#[export] Hint Resolve keeps_self_update_status keeps_self_call_execute : keeps.

(** The counter is bumped once on every path, also when the call raises. *)
Lemma call_counts a s w : agent_after_call a s w = counted a.
Proof.
  unfold agent_after_call, BaseAgent_call.
  change (incr_execution_count ≫= ?f) with
    (fun m : machine => f () (Machine (counted (self m)) (state m) (env m))).
  cbn beta.
  match goal with
  | |- self (?k ?m).2 = _ => assert (Hk : keeps_self k) by keeps; apply (Hk m)
  end.
Qed.

Lemma error_entry_lookup agent msg timestamp count :
  error_entry agent msg timestamp count !! "agent" = Some (VStr agent) /\
  error_entry agent msg timestamp count !! "error" = Some (VStr msg) /\
  error_entry agent msg timestamp count !! "timestamp" = Some (VStr timestamp) /\
  error_entry agent msg timestamp count !! "execution_count" = Some (VInt count).
Proof. unfold error_entry. split_and!; reflexivity. Qed.

Lemma error_entry_count_inj agent msg timestamp count agent' msg' timestamp' count' :
  error_entry agent msg timestamp count = error_entry agent' msg' timestamp' count' ->
  count = count'.
Proof.
  intros H. apply (f_equal (fun d : pydict => d !! "execution_count")) in H.
  destruct (error_entry_lookup agent msg timestamp count) as (_ & _ & _ & H1).
  destruct (error_entry_lookup agent' msg' timestamp' count') as (_ & _ & _ & H2).
  rewrite H1, H2 in H. congruence.
Qed.

Lemma apply_update_errors s upd l :
  upd !! "error_log" = Some (VList l) -> errors_of (apply_update s upd) = l.
Proof.
  intros H. unfold errors_of, apply_update.
  rewrite (lookup_union_Some_l _ _ _ _ H). reflexivity.
Qed.

Lemma apply_update_errors_none s upd :
  upd !! "error_log" = None -> errors_of (apply_update s upd) = errors_of s.
Proof.
  intros H. unfold errors_of, apply_update.
  rewrite lookup_union_r by assumption. reflexivity.
Qed.

Lemma with_status_errors agent st s : errors_of (with_status agent st s) = errors_of s.
Proof.
  unfold errors_of, with_status. rewrite lookup_insert_ne by discriminate. reflexivity.
Qed.

Lemma apply_update_statuses s upd d :
  upd !! "agent_status" = Some (VDict d) -> statuses_of (apply_update s upd) = d.
Proof.
  intros H. unfold statuses_of, apply_update.
  rewrite (lookup_union_Some_l _ _ _ _ H). reflexivity.
Qed.

Lemma apply_update_times s upd d :
  upd !! "execution_time" = Some (VDict d) -> times_of (apply_update s upd) = d.
Proof.
  intros H. unfold times_of, apply_update.
  rewrite (lookup_union_Some_l _ _ _ _ H). reflexivity.
Qed.

(** Writing the entry of a name that is present keeps the keys and the size. *)
Lemma overwrite_keeps_keys (d : pydict) (k : string) (v : value) :
  is_Some (d !! k) ->
  dom (<[k := v]> d) = dom d /\ size (<[k := v]> d) = size d.
Proof.
  intros [x Hx]. split.
  - apply dom_insert_lookup_L. eauto.
  - rewrite map_size_insert, Hx. reflexivity.
Qed.

End KernelFacts.

(** * The kernel contract *)

Import Agents Metadata Search Examples KernelFacts.




(** C2: when the domain logic raises [e], the kernel call does not raise: it
    returns an update made of exactly three entries, the agent's status
    failed, the error log with one entry appended (the agent's name, the text
    of [e], a timestamp and the invocation number) and the execution time, so
    no domain field is changed; the state object itself is written at
    [agent_status] only.  Every call, whatever its outcome, adds one to
    the agent's counter; two consecutive failing calls of a newly constructed
    agent append entries numbered 1 and 2, which differ. *)
Theorem kernel_failure_update (a : BaseAgent) (s s2 : pydict) (w w2 : world)
    (e e2 : exn) :
  metadata_typed s = true ->
  metadata_typed s2 = true ->
  domain_logic a s = inl e ->
  domain_logic a s2 = inl e2 ->
  let entry := error_entry (name a) (str_exn w e) (isoformat (now_of w))
                           (execution_count a + 1) in
  let new := BaseAgent_init (name a) (Some (config a)) (execute a) in
  let first := error_entry (name a) (str_exn w e) (isoformat (now_of w)) 1 in
  let second := error_entry (name a) (str_exn w2 e2) (isoformat (now_of w2)) 2 in
  (exists upd,
     result_of_call a s w = inr upd /\
     upd !! "agent_status" =
       Some (VDict (<[name a := VStatus FAILED]> (statuses_of s))) /\
     upd !! "error_log" = Some (VList (errors_of s ++ [VDict entry])) /\
     (forall k, k ∉ ["agent_status"; "error_log"; "execution_time"] ->
                upd !! k = None) /\
     errors_of (apply_update (state_after_call a s w) upd) =
       errors_of s ++ [VDict entry] /\
     (forall k, k ≠ "agent_status" -> state_after_call a s w !! k = s !! k)) /\
  entry !! "agent" = Some (VStr (name a)) /\
  entry !! "error" = Some (VStr (str_exn w e)) /\
  entry !! "timestamp" = Some (VStr (isoformat (now_of w))) /\
  entry !! "execution_count" = Some (VInt (execution_count a + 1)) /\
  (forall a' s' w',
     execution_count (agent_after_call a' s' w') = (execution_count a' + 1)%Z) /\
  (exists upd1 upd2,
     result_of_call new s w = inr upd1 /\
     result_of_call (agent_after_call new s w) s2 w2 = inr upd2 /\
     upd1 !! "error_log" = Some (VList (errors_of s ++ [VDict first])) /\
     upd2 !! "error_log" = Some (VList (errors_of s2 ++ [VDict second])) /\
     first !! "execution_count" = Some (VInt 1) /\
     second !! "execution_count" = Some (VInt 2) /\
     first ≠ second).
Proof.
  intros Ht Ht2 He He2 entry new first second.
  destruct (failure_update_lookup a s w e) as (Hst & Hlog & _ & Hnone).
  destruct (error_entry_lookup (name a) (str_exn w e) (isoformat (now_of w))
              (execution_count a + 1)) as (E1 & E2 & E3 & E4).
  split_and!; try assumption.
  - exists (failure_update a s w e).
    unfold result_of_call, state_after_call.
    rewrite (call_failure a s w e Ht He). cbn.
    split_and!; try assumption; try reflexivity.
    + apply apply_update_errors. assumption.
    + intros k Hk. unfold with_status. apply lookup_insert_ne. congruence.
  - intros a' s' w'. rewrite call_counts. reflexivity.
  - exists (failure_update new s w e),
           (failure_update (counted new) s2 w2 e2).
    unfold result_of_call. rewrite call_counts.
    rewrite (call_failure new s w e Ht He).
    rewrite (call_failure (counted new) s2 w2 e2 Ht2 He2). cbn.
    split_and!; try reflexivity.
    intros H. apply error_entry_count_inj in H. discriminate.
Qed.

Lemma kernel_failure_update_witness :
  (exists upd,
     result_of_call researcher ∅ ticking = inr upd /\
     upd !! "agent_status" = Some (VDict {[ "Researcher" := VStatus FAILED ]}) /\
     upd !! "error_log" =
       Some (VList [VDict (error_entry "Researcher" "boom" "2024-05-01T12:00:00" 1)])) /\
  (exists upd2,
     result_of_call (agent_after_call researcher ∅ ticking) rerun_state ticking
       = inr upd2 /\
     upd2 !! "error_log" =
       Some (VList [VDict earlier_entry;
                    VDict (error_entry "Researcher" "boom" "2024-05-01T12:00:00" 2)])).
Proof.
  destruct (kernel_failure_update researcher ∅ rerun_state ticking ticking
              (Raised "boom") (Raised "boom"))
    as ((upd & Hres & Hst & Hlog & _) & _ & _ & _ & _ & _ & Htwo);
    [reflexivity | reflexivity | reflexivity | reflexivity |].
  destruct Htwo as (upd1 & upd2 & _ & Hres2 & _ & Hlog2 & _).
  split.
  - exists upd. split_and!; assumption.
  - exists upd2. split; assumption.
Defined.

(** The typing of the metadata cannot be dropped: on a state whose
    [agent_status] is [None] the status write raises, and so does the handler
    when it unpacks the same value. *)
Example ill_typed_state_escapes :
  result_of_call researcher {[ "agent_status" := VNone ]} ticking =
    inl (TypeError "**" VNone).
Proof. reflexivity. Qed.

(** C3 fails as stated: an agent that returns its own [last_modified_by]
    does not find it in the result, the kernel's value replaces it. *)
Lemma agent_value_lost_on_collision :
  domain_logic editor ∅ =
    inr {[ "last_modified_by" := VStr "somebody else"; "version" := VInt 0 ]} /\
  exists upd,
    result_of_call editor ∅ ticking = inr upd /\
    upd !! "last_modified_by" = Some (VStr "Editor") /\
    upd !! "last_modified_by" ≠ Some (VStr "somebody else").
Proof.
  split; [reflexivity |].
  eexists. split; [vm_compute; reflexivity |].
  split; [reflexivity | discriminate].
Qed.

(** C3, amended: on the success path the kernel's four metadata entries are
    written over the map the agent returned.  Every key of the returned map
    other than those four is in the result with the agent's value; the four
    metadata keys hold the kernel's values whatever the agent returned under
    them. *)
Theorem kernel_metadata_wins (a : BaseAgent) (s : pydict) (w : world) (r : pydict) :
  metadata_typed s = true ->
  domain_logic a s = inr r ->
  exists upd,
    result_of_call a s w = inr upd /\
    (forall k, k ∉ kernel_keys -> upd !! k = r !! k) /\
    upd !! "last_modified_by" = Some (VStr (name a)) /\
    upd !! "last_modified_at" = Some (VDatetime (now_of w)) /\
    upd !! "execution_time" =
      Some (VDict (<[name a := VFloat (elapsed w)]> (times_of s))) /\
    upd !! "agent_status" =
      Some (VDict (<[name a := VStatus COMPLETED]> (statuses_of s))).
Proof.
  intros Ht Hr. exists (success_update a s w r).
  unfold result_of_call. rewrite (call_success a s w r Ht Hr). cbn.
  split; [reflexivity |]. split.
  - intros k Hk. apply success_update_other, Hk.
  - apply success_update_kernel.
Qed.

Lemma kernel_metadata_wins_witness :
  exists upd,
    result_of_call editor rerun_state ticking = inr upd /\
    upd !! "version" = Some (VInt 0) /\
    upd !! "last_modified_by" = Some (VStr "Editor").
Proof.
  destruct (kernel_metadata_wins editor rerun_state ticking
              {[ "last_modified_by" := VStr "somebody else"; "version" := VInt 0 ]})
    as (upd & Hres & Hother & Hby & _); [reflexivity | reflexivity |].
  exists upd. split_and!; [assumption | | assumption].
  rewrite Hother; [reflexivity |].
  unfold kernel_keys.
  repeat (apply not_elem_of_cons; split; [discriminate |]). apply not_elem_of_nil.
Defined.

(** C4 fails as stated: the update of a failed call has no [last_modified_by],
    no [last_modified_at] and no [version]; the update of a successful call
    has no [version] either. *)
Lemma failed_call_leaves_versioning :
  (exists upd,
     result_of_call researcher rerun_state ticking = inr upd /\
     upd !! "last_modified_by" ≠ Some (VStr "Researcher") /\
     upd !! "last_modified_by" = None /\
     upd !! "last_modified_at" = None /\
     upd !! "version" = None) /\
  (exists upd,
     result_of_call writer rerun_state ticking = inr upd /\
     upd !! "version" = None).
Proof.
  split.
  - eexists. split; [vm_compute; reflexivity |].
    split_and!; [discriminate | reflexivity ..].
  - eexists. split; [vm_compute; reflexivity | reflexivity].
Qed.

(** C4, amended: a state is created with [version] 1.  A successful call
    returns an update that sets [last_modified_by] to the agent's name and
    [last_modified_at] to the current time; the update of a failed call has
    neither.  The kernel never writes [version]: the update has one only when
    the map the agent returned has, and the state object keeps its own. *)
Theorem versioning_written_on_success (a : BaseAgent) (s : pydict) (w : world) :
  metadata_typed s = true ->
  (forall topic requirements audience tone words w0,
     exists st,
       (Schema.create_initial_state topic requirements audience tone words w0).1
         = inr st /\
       st !! "version" = Some (VInt 1)) /\
  (exists upd,
     result_of_call a s w = inr upd /\
     match domain_logic a s with
     | inr r =>
         upd !! "last_modified_by" = Some (VStr (name a)) /\
         upd !! "last_modified_at" = Some (VDatetime (now_of w)) /\
         upd !! "version" = r !! "version"
     | inl _ =>
         upd !! "last_modified_by" = None /\
         upd !! "last_modified_at" = None /\
         upd !! "version" = None
     end) /\
  state_after_call a s w !! "version" = s !! "version".
Proof.
  intros Ht. split_and!.
  - intros. eexists. split; reflexivity.
  - unfold result_of_call. destruct (domain_logic a s) as [e|r] eqn:Hr.
    + exists (failure_update a s w e). rewrite (call_failure a s w e Ht Hr).
      split; [reflexivity |]. split_and!; reflexivity.
    + exists (success_update a s w r). rewrite (call_success a s w r Ht Hr).
      split; [reflexivity |].
      destruct (success_update_kernel a s w r) as (Hby & Hat & _).
      split_and!; try assumption.
      apply success_update_other. unfold kernel_keys.
      repeat (apply not_elem_of_cons; split; [discriminate |]). apply not_elem_of_nil.
  - unfold state_after_call.
    destruct (domain_logic a s) as [e|r] eqn:Hr.
    + rewrite (call_failure a s w e Ht Hr). cbn. unfold with_status.
      apply lookup_insert_ne. discriminate.
    + rewrite (call_success a s w r Ht Hr). cbn. unfold with_status.
      apply lookup_insert_ne. discriminate.
Qed.

Lemma versioning_written_on_success_witness :
  (exists upd,
     result_of_call writer rerun_state ticking = inr upd /\
     upd !! "last_modified_by" = Some (VStr "Writer") /\
     upd !! "last_modified_at" = Some (VDatetime (Datetime "2024-05-01T12:00:00")) /\
     upd !! "version" = None) /\
  state_after_call writer rerun_state ticking !! "version" = Some (VInt 1).
Proof.
  destruct (versioning_written_on_success writer rerun_state ticking)
    as (_ & (upd & Hres & Hupd) & Hst); [reflexivity |].
  split; [exists upd; split; [exact Hres | exact Hupd] | exact Hst].
Defined.

(** C5 fails as stated: on success the kernel passes an [error_log] the
    agent returned through to the update, so an agent that returns an empty
    one leaves the state without the entries it had. *)
Lemma agent_error_log_passes_through :
  exists upd,
    result_of_call MoreExamples.wiper rerun_state ticking = inr upd /\
    errors_of rerun_state = [VDict earlier_entry] /\
    errors_of (apply_update
                 (state_after_call MoreExamples.wiper rerun_state ticking) upd) = [] /\
    ~ (errors_of rerun_state `prefix_of`
       errors_of (apply_update
                    (state_after_call MoreExamples.wiper rerun_state ticking) upd)).
Proof.
  eexists. split; [vm_compute; reflexivity |].
  split; [reflexivity |]. split; [reflexivity |].
  intros [k Hk]. discriminate Hk.
Qed.

(** C5, amended: a failed call leaves the error log of the state as the log
    it found with exactly one entry appended.  A successful call writes no
    [error_log] of its own: the update holds the entry the agent returned, if
    any, as it is, and when the agent returned none the log of the state is
    unchanged.  So for an agent that returns no [error_log] the log found is
    a prefix of the log left, on both paths.  The agent's entries in
    [agent_status] and [execution_time] are written at the agent's name, so
    an agent that has an entry already keeps a single one: the keys and the
    size of both maps are those of the input; on success [last_modified_by]
    is the agent's name. *)
Theorem error_log_append_only (a : BaseAgent) (s : pydict) (w : world) :
  metadata_typed s = true ->
  exists upd outcome,
    result_of_call a s w = inr upd /\
    let s' := apply_update (state_after_call a s w) upd in
    match domain_logic a s with
    | inr r =>
        outcome = COMPLETED /\
        upd !! "error_log" = r !! "error_log" /\
        (r !! "error_log" = None -> errors_of s' = errors_of s) /\
        s' !! "last_modified_by" = Some (VStr (name a))
    | inl _ =>
        outcome = FAILED /\
        (exists entry, errors_of s' = errors_of s ++ [VDict entry]) /\
        length (errors_of s') = S (length (errors_of s))
    end /\
    (leaves_error_log a s -> errors_of s `prefix_of` errors_of s') /\
    statuses_of s' = <[name a := VStatus outcome]> (statuses_of s) /\
    times_of s' = <[name a := VFloat (elapsed w)]> (times_of s) /\
    (is_Some (statuses_of s !! name a) ->
       dom (statuses_of s') = dom (statuses_of s) /\
       size (statuses_of s') = size (statuses_of s)) /\
    (is_Some (times_of s !! name a) ->
       dom (times_of s') = dom (times_of s) /\
       size (times_of s') = size (times_of s)).
Proof.
  intros Ht. unfold leaves_error_log.
  unfold result_of_call, state_after_call.
  destruct (domain_logic a s) as [e|r] eqn:Hr; unfold domain_logic in Hr;
    rewrite Hr.
  - exists (failure_update a s w e), FAILED.
    rewrite (call_failure a s w e Ht Hr). cbn.
    destruct (failure_update_lookup a s w e) as (Hst & Hlog & Htime & _).
    rewrite (apply_update_errors _ _ _ Hlog),
            (apply_update_statuses _ _ _ Hst),
            (apply_update_times _ _ _ Htime).
    split_and!; try reflexivity.
    + eexists. reflexivity.
    + rewrite length_app. cbn. lia.
    + intros _. apply prefix_app_r. reflexivity.
    + apply overwrite_keeps_keys.
    + apply overwrite_keeps_keys.
  - exists (success_update a s w r), COMPLETED.
    rewrite (call_success a s w r Ht Hr). cbn.
    destruct (success_update_kernel a s w r) as (Hby & _ & Htime & Hst).
    assert (Hpass : success_update a s w r !! "error_log" = r !! "error_log").
    { apply success_update_other. unfold kernel_keys.
      repeat (apply not_elem_of_cons; split; [discriminate |]).
      apply not_elem_of_nil. }
    assert (Hsame : r !! "error_log" = None ->
              errors_of (apply_update (with_status (name a) IN_PROGRESS s)
                                      (success_update a s w r)) = errors_of s).
    { intros Hnone. rewrite Hnone in Hpass.
      rewrite (apply_update_errors_none _ _ Hpass). apply with_status_errors. }
    rewrite (apply_update_statuses _ _ _ Hst),
            (apply_update_times _ _ _ Htime).
    split_and!; try reflexivity; try assumption.
    + unfold apply_update. apply lookup_union_Some_l, Hby.
    + intros Hnone. rewrite (Hsame Hnone). reflexivity.
    + apply overwrite_keeps_keys.
    + apply overwrite_keeps_keys.
Qed.

Lemma error_log_append_only_witness :
  (exists upd,
     result_of_call writer rerun_state ticking = inr upd /\
     let s' := apply_update (state_after_call writer rerun_state ticking) upd in
     errors_of s' = [VDict earlier_entry] /\
     statuses_of s' = {[ "Writer" := VStatus COMPLETED;
                         "Researcher" := VStatus FAILED ]} /\
     size (times_of s') = 2%nat) /\
  (exists upd,
     result_of_call researcher rerun_state ticking = inr upd /\
     let s' := apply_update (state_after_call researcher rerun_state ticking) upd in
     length (errors_of s') = 2%nat /\
     size (statuses_of s') = 2%nat).
Proof.
  split.
  - destruct (error_log_append_only writer rerun_state ticking)
      as (upd & outcome & Hres & (Hout & _ & Hlog & _) & _ & Hst & _ & _ & Htimes);
      [reflexivity |].
    exists upd. split; [exact Hres |]. cbn zeta. split_and!.
    + rewrite Hlog; reflexivity.
    + rewrite Hst, Hout. vm_compute. reflexivity.
    + destruct Htimes as [_ Hsize]; [eexists; reflexivity |].
      rewrite Hsize. reflexivity.
  - destruct (error_log_append_only researcher rerun_state ticking)
      as (upd & outcome & Hres & (_ & _ & Hlen) & _ & _ & _ & Hst & _);
      [reflexivity |].
    exists upd. split; [exact Hres |]. cbn zeta. split.
    + rewrite Hlen. reflexivity.
    + destruct Hst as [_ Hsize]; [eexists; reflexivity |].
      rewrite Hsize. reflexivity.
Defined.

(** * State validation *)

Lemma eqb_empty_length (t : string) : String.eqb t "" = true <-> String.length t = 0%nat.
Proof. destruct t; cbn; split; intros H; (reflexivity || discriminate). Qed.

(** [validate_state] on a state that has a topic, and on one that has none. *)
Lemma validate_state_present (s : pydict) (topic : value) :
  s !! "topic" = Some topic ->
  Schema.validate_state s =
    if truthy topic then
      match py_len topic with
      | inl e => inl e
      | inr n =>
          if (n <? 3)%nat
          then inr (false, Some "Topic must be at least 3 characters long")
          else if (200 <? n)%nat
               then inr (false, Some "Topic must be less than 200 characters")
               else inr (true, None)
      end
    else inr (false, Some "Missing required field: topic").
Proof.
  intros Ht. unfold Schema.validate_state, Schema.first_missing, subscript.
  rewrite Ht. destruct (truthy topic); reflexivity.
Qed.

Lemma validate_state_absent (s : pydict) :
  s !! "topic" = None ->
  Schema.validate_state s = inr (false, Some "Missing required field: topic").
Proof.
  intros Ht. unfold Schema.validate_state, Schema.first_missing.
  rewrite Ht. reflexivity.
Qed.

Lemma validate_state_string (s : pydict) (t : string) :
  s !! "topic" = Some (VStr t) ->
  Schema.validate_state s =
    if String.eqb t "" then inr (false, Some "Missing required field: topic")
    else if (String.length t <? 3)%nat
         then inr (false, Some "Topic must be at least 3 characters long")
         else if (200 <? String.length t)%nat
              then inr (false, Some "Topic must be less than 200 characters")
              else inr (true, None).
Proof.
  intros Ht. rewrite (validate_state_present s _ Ht).
  unfold truthy, py_len. destruct (String.eqb t ""); reflexivity.
Qed.

(** C6: [validate_state] passes exactly when the topic is present, is not
    empty and has a length from 3 to 200; for a string topic, exactly when its
    length is from 3 to 200.  A state without topic, the empty topic, "ab",
    and every topic of more than 200 characters are rejected, and every
    rejection carries a reason. *)
Theorem validate_state_topic (s : pydict) :
  (Schema.validate_state s = inr (true, None) <->
   exists topic n,
     s !! "topic" = Some topic /\ truthy topic = true /\
     py_len topic = inr n /\ (3 <= n <= 200)%nat) /\
  (forall t, Schema.validate_state (<["topic" := VStr t]> s) = inr (true, None) <->
             (3 <= String.length t <= 200)%nat) /\
  (forall reason, Schema.validate_state s = inr (true, reason) -> reason = None) /\
  (forall reason, Schema.validate_state s = inr (false, reason) -> is_Some reason) /\
  Schema.validate_state (delete "topic" s) =
    inr (false, Some "Missing required field: topic") /\
  Schema.validate_state (<["topic" := VStr ""]> s) =
    inr (false, Some "Missing required field: topic") /\
  Schema.validate_state (<["topic" := VStr "ab"]> s) =
    inr (false, Some "Topic must be at least 3 characters long") /\
  Schema.validate_state (<["topic" := VStr (repeat_char 201)]> s) =
    inr (false, Some "Topic must be less than 200 characters") /\
  (forall t, (200 < String.length t)%nat ->
             exists reason,
               Schema.validate_state (<["topic" := VStr t]> s) = inr (false, Some reason)).
Proof.
  assert (Hgen : forall s0 : pydict,
    (Schema.validate_state s0 = inr (true, None) <->
     exists topic n,
       s0 !! "topic" = Some topic /\ truthy topic = true /\
       py_len topic = inr n /\ (3 <= n <= 200)%nat) /\
    (forall reason, Schema.validate_state s0 = inr (true, reason) -> reason = None) /\
    (forall reason, Schema.validate_state s0 = inr (false, reason) -> is_Some reason)).
  { intros s0. destruct (s0 !! "topic") as [topic|] eqn:Htopic.
    2: { rewrite (validate_state_absent s0 Htopic). split_and!.
         - split; [discriminate | intros (? & ? & ? & _); discriminate].
         - intros ? ?; discriminate.
         - intros ? H; inversion H; eauto. }
    rewrite (validate_state_present s0 topic Htopic).
    destruct (truthy topic) eqn:Htruthy.
    2: { split_and!.
         - split; [discriminate |].
           intros (? & ? & H & ? & _). injection H as <-. congruence.
         - intros ? ?; discriminate.
         - intros ? H; inversion H; eauto. }
    destruct (py_len topic) as [e|n] eqn:Hlen.
    { split_and!.
      - split; [discriminate |].
        intros (? & ? & H & _ & ? & _). injection H as <-. congruence.
      - intros ? ?; discriminate.
      - intros ? ?; discriminate. }
    destruct (Nat.ltb_spec n 3); [| destruct (Nat.ltb_spec 200 n)]; split_and!;
      try (intros ? H'; inversion H'; eauto; fail);
      try (split; [discriminate |];
           intros (? & ? & H1 & _ & H2 & ?); injection H1 as <-;
           rewrite Hlen in H2; injection H2 as <-; lia).
    split; [| reflexivity]. intros _. exists topic, n. split_and!; auto; lia. }
  assert (Hstr : forall t, (<["topic" := VStr t]> s) !! "topic" = Some (VStr t))
    by (intros; apply lookup_insert_eq).
  split_and!; try apply Hgen.
  - intros t. rewrite (validate_state_string _ t (Hstr t)).
    destruct (String.eqb t "") eqn:He.
    { apply eqb_empty_length in He. split; [discriminate | lia]. }
    destruct (Nat.ltb_spec (String.length t) 3);
      [split; [discriminate | lia] |].
    destruct (Nat.ltb_spec 200 (String.length t));
      [split; [discriminate | lia] |].
    split; [lia | reflexivity].
  - apply validate_state_absent, lookup_delete_eq.
  - rewrite (validate_state_string _ "" (Hstr "")). reflexivity.
  - rewrite (validate_state_string _ "ab" (Hstr "ab")). reflexivity.
  - rewrite (validate_state_string _ _ (Hstr (repeat_char 201))). reflexivity.
  - intros t Hlong. rewrite (validate_state_string _ t (Hstr t)).
    destruct (String.eqb t "") eqn:He; [eauto |].
    destruct (Nat.ltb_spec (String.length t) 3); [eauto |].
    destruct (Nat.ltb_spec 200 (String.length t)); [eauto | lia].
Qed.

(** * The conditional gate and the measured interval *)

Lemma skipped_call (c : ConditionalAgent) (s : pydict) (w : world) :
  metadata_typed s = true ->
  should_execute c s = false ->
  conditional_call c s w =
    (inr {[ "agent_status" :=
              VDict (<[name (base c) := VStatus COMPLETED]> (statuses_of s)) ]},
     Machine (base c) s (emit (EvLog "info" (Skipped (name (base c)))) w)).
Proof.
  intros Ht Hskip. unfold conditional_call, ConditionalAgent_call. run.
  rewrite Hskip. cbn.
  apply typed_agent_status in Ht. unfold dict_get, statuses_of.
  destruct (s !! "agent_status") as [[]|]; try discriminate; reflexivity.
Qed.

Lemma steps_after (a : BaseAgent) (s : pydict) (w : world) (evs : list event) r m :
  BaseAgent_call (Machine a s w) = (r, m) ->
  trace (env m) = trace w ++ evs ->
  steps_of_call a s w = evs.
Proof.
  intros Hcall Htrace. unfold steps_of_call, world_after_call.
  rewrite Hcall. cbn. rewrite Htrace. apply drop_app_length.
Qed.

(** C7: when [should_execute] is false on the state, the call returns the
    update whose only entry is [agent_status] with this agent completed.  It
    leaves the agent object (and its counter) and the state object as they
    were, logs the skip and does nothing else: no clock reading, no status
    write, no call of the domain logic.  The update has no [error_log] and no
    [execution_time]; folded into the state it changes no key other than
    [agent_status] and no status other than this agent's. *)
Theorem conditional_skip (c : ConditionalAgent) (s : pydict) (w : world) :
  metadata_typed s = true ->
  should_execute c s = false ->
  let agent := name (base c) in
  let m := (conditional_call c s w).2 in
  exists upd,
    (conditional_call c s w).1 = inr upd /\
    upd = {[ "agent_status" := VDict (<[agent := VStatus COMPLETED]> (statuses_of s)) ]} /\
    statuses_of (apply_update s upd) !! agent = Some (VStatus COMPLETED) /\
    self m = base c /\
    execution_count (self m) = execution_count (base c) /\
    state m = s /\
    trace (env m) = trace w ++ [EvLog "info" (Skipped agent)] /\
    time_reads (env m) = time_reads w /\
    now_reads (env m) = now_reads w /\
    upd !! "error_log" = None /\
    upd !! "execution_time" = None /\
    (forall k, k ≠ "agent_status" -> apply_update s upd !! k = s !! k) /\
    (forall other, other ≠ agent ->
       statuses_of (apply_update s upd) !! other = statuses_of s !! other).
Proof.
  intros Ht Hskip agent m. subst m.
  rewrite (skipped_call c s w Ht Hskip). cbn.
  eexists. split; [reflexivity |]. split; [reflexivity |].
  assert (Hst : forall d : pydict,
            statuses_of (apply_update s {[ "agent_status" := VDict d ]}) = d).
  { intros d. apply apply_update_statuses, lookup_singleton_eq. }
  rewrite Hst. split_and!; try reflexivity.
  - apply lookup_insert_eq.
  - intros k Hk. unfold apply_update. apply lookup_union_r.
    apply lookup_singleton_ne. congruence.
  - intros other Hother. apply lookup_insert_ne.
    intros Heq. apply Hother. symmetry. exact Heq.
Qed.

Lemma conditional_skip_witness :
  exists upd,
    (conditional_call gated rerun_state ticking).1 = inr upd /\
    upd = {[ "agent_status" := VDict {[ "Writer" := VStatus COMPLETED;
                                        "Researcher" := VStatus FAILED ]} ]} /\
    execution_count (self (conditional_call gated rerun_state ticking).2) = 0%Z /\
    trace (env (conditional_call gated rerun_state ticking).2) =
      [EvLog "info" (Skipped "Writer")].
Proof.
  destruct (conditional_skip gated rerun_state ticking)
    as (upd & Hres & Hupd & _ & _ & Hcount & _ & Htrace & _);
    [reflexivity | reflexivity |].
  exists upd. split_and!; [exact Hres | | exact Hcount | exact Htrace].
  rewrite Hupd. vm_compute. reflexivity.
Defined.

(** C8 fails as stated: between the two clock readings of a call lie the
    start log record and the status write, not the domain logic alone. *)
Lemma measurement_includes_status_write :
  measured_span (steps_of_call writer ∅ ticking) =
    [ EvLog "info" (Starting "Writer" 1);
      EvStatus "Writer" IN_PROGRESS;
      EvExecute "Writer" ] /\
  measured_span (steps_of_call writer ∅ ticking) ≠ [EvExecute "Writer"].
Proof. split; [vm_compute; reflexivity | vm_compute; discriminate]. Qed.

(** C8, amended: the duration recorded for the agent is the difference of two
    clock readings.  The first is the first step of the call, taken before the
    start is logged and before the in-progress status is written; the second
    is taken right after the domain logic returns or raises.  The interval
    holds the start log record, the status write and the domain logic; the
    reading of the date, the completion or failure log record and the
    building of the update come after it.  This holds on both paths. *)
Theorem duration_measured_from_entry (a : BaseAgent) (s : pydict) (w : world) :
  metadata_typed s = true ->
  exists upd times rest,
    result_of_call a s w = inr upd /\
    upd !! "execution_time" = Some (VDict times) /\
    times !! name a = Some (VFloat (stop_of w - start_of w)) /\
    steps_of_call a s w =
      [ EvTime (start_of w);
        EvLog "info" (Starting (name a) (execution_count a + 1));
        EvStatus (name a) IN_PROGRESS;
        EvExecute (name a);
        EvTime (stop_of w) ] ++ rest /\
    measured_span (steps_of_call a s w) =
      [ EvLog "info" (Starting (name a) (execution_count a + 1));
        EvStatus (name a) IN_PROGRESS;
        EvExecute (name a) ] /\
    after_measurement (steps_of_call a s w) = rest /\
    rest = match domain_logic a s with
           | inr _ =>
               [ EvNow (now_of w);
                 EvLog "info" (Completed (name a) (stop_of w - start_of w)
                                         (execution_count a + 1)) ]
           | inl e =>
               [ EvLog "error" (Failing (name a) (stop_of w - start_of w) e);
                 EvNow (now_of w) ]
           end.
Proof.
  intros Ht. unfold result_of_call.
  destruct (domain_logic a s) as [e|r] eqn:Hr.
  - pose proof (call_failure a s w e Ht Hr) as Hcall.
    rewrite (steps_after a s w (failure_trace a w e) _ _ Hcall eq_refl).
    rewrite Hcall. cbn.
    destruct (failure_update_lookup a s w e) as (_ & _ & Htime & _).
    eexists _, _, _. split_and!; try reflexivity; try exact Htime.
    apply lookup_insert_eq.
  - pose proof (call_success a s w r Ht Hr) as Hcall.
    rewrite (steps_after a s w (success_trace a w) _ _ Hcall eq_refl).
    rewrite Hcall. cbn.
    destruct (success_update_kernel a s w r) as (_ & _ & Htime & _).
    eexists _, _, _. split_and!; try reflexivity; try exact Htime.
    apply lookup_insert_eq.
Qed.

Lemma duration_measured_from_entry_witness :
  exists upd times,
    result_of_call researcher rerun_state ticking = inr upd /\
    upd !! "execution_time" = Some (VDict times) /\
    times !! "Researcher" = Some (VFloat (stop_of ticking - start_of ticking)) /\
    measured_span (steps_of_call researcher rerun_state ticking) =
      [ EvLog "info" (Starting "Researcher" 1);
        EvStatus "Researcher" IN_PROGRESS;
        EvExecute "Researcher" ].
Proof.
  destruct (duration_measured_from_entry researcher rerun_state ticking)
    as (upd & times & rest & Hres & Htimes & Hmine & _ & Hspan & _);
    [reflexivity |].
  exists upd, times. split_and!; assumption.
Defined.

(** * The search providers *)

Ltac run_search :=
  unfold mbind, M_bind, mret, M_ret, lift, raise, log, absorb; cbn.

Lemma absorbed (body : T (list value)) (provider : string) (tr : list event) :
  (exists results tr', try_except body (absorb provider) tr = (inr results, tr')) /\
  match body tr with
  | (inl e, tr1) =>
      try_except body (absorb provider) tr =
        (inr [], tr1 ++ [EvLog "error" (SearchFailed provider e)])
  | (inr results, tr1) =>
      try_except body (absorb provider) tr = (inr results, tr1)
  end.
Proof.
  unfold try_except. destruct (body tr) as [[e|results] tr1]; run_search; eauto.
Qed.

Lemma search_is_absorbed (p : SearchProvider) (query : string) (n : Z) :
  provider_search p query n =
    try_except (provider_try p query n) (absorb (provider_name p)).
Proof. destruct p; reflexivity. Qed.

Lemma serper_fetch_failure (d : SerperSearch) (query : string) (n : Z)
    (tr : list event) (e : exn) :
  fetched (serper_session d) (serper_base_url d)
          {[ "q" := VStr query; "num" := VInt n ]}
          (Some {[ "X-API-KEY" := serper_api_key d;
                   "Content-Type" := "application/json" ]})
          (serper_timeout d) = inl e ->
  SerperSearch_try d query n tr = (inl e, tr).
Proof.
  unfold fetched, SerperSearch_try, raise_for_status. run_search.
  destruct (serper_session d _ _ _ _) as [e0|response]; [congruence |].
  destruct ((400 <=? status_code response) && (status_code response <? 600))%Z;
    cbn; [congruence |].
  destruct (json response); [congruence | discriminate].
Qed.

Lemma tavily_fetch_failure (d : TavilySearch) (query : string) (n : Z)
    (tr : list event) (e : exn) :
  fetched (tavily_session d) (tavily_base_url d)
          {[ "api_key" := VStr (tavily_api_key d);
             "query" := VStr query;
             "max_results" := VInt n;
             "search_depth" := VStr "advanced" ]}
          None (tavily_timeout d) = inl e ->
  TavilySearch_try d query n tr = (inl e, tr).
Proof.
  unfold fetched, TavilySearch_try, raise_for_status. run_search.
  destruct (tavily_session d _ _ _ _) as [e0|response]; [congruence |].
  destruct ((400 <=? status_code response) && (status_code response <? 600))%Z;
    cbn; [congruence |].
  destruct (json response); [congruence | discriminate].
Qed.

Lemma duckduckgo_failure (d : DuckDuckGoSearch) (query : string) (n : Z)
    (tr : list event) (items : list value) (e : exn) :
  ddgs d query n = (items, Some e) ->
  exists e', DuckDuckGoSearch_try d query n tr = (inl e', tr).
Proof.
  unfold DuckDuckGoSearch_try. intros ->. run_search.
  destruct (collect "href" "body" items []); eauto.
Qed.

(** C9: the [search] of every provider returns a list and never raises.  When
    its [try] block raises, whatever the exception, the failure is logged and
    the result is the empty list; otherwise the result is that of the block.
    In particular a client that fails, a request that raises (an unreachable
    endpoint, a timeout), an error status and a body that does not parse all
    give the empty list. *)
Theorem provider_failures_absorbed (p : SearchProvider) (query : string) (n : Z)
    (tr : list event) :
  (exists results tr', provider_search p query n tr = (inr results, tr')) /\
  match provider_try p query n tr with
  | (inl e, tr1) =>
      provider_search p query n tr =
        (inr [], tr1 ++ [EvLog "error" (SearchFailed (provider_name p) e)])
  | (inr results, tr1) => provider_search p query n tr = (inr results, tr1)
  end /\
  match p with
  | UseDuckDuckGo d =>
      forall items e, ddgs d query n = (items, Some e) ->
                      (provider_search p query n tr).1 = inr []
  | UseSerper d =>
      forall e,
        fetched (serper_session d) (serper_base_url d)
                {[ "q" := VStr query; "num" := VInt n ]}
                (Some {[ "X-API-KEY" := serper_api_key d;
                         "Content-Type" := "application/json" ]})
                (serper_timeout d) = inl e ->
        (provider_search p query n tr).1 = inr []
  | UseTavily d =>
      forall e,
        fetched (tavily_session d) (tavily_base_url d)
                {[ "api_key" := VStr (tavily_api_key d);
                   "query" := VStr query;
                   "max_results" := VInt n;
                   "search_depth" := VStr "advanced" ]}
                None (tavily_timeout d) = inl e ->
        (provider_search p query n tr).1 = inr []
  end /\
  (forall key timeout url,
     (provider_search (UseSerper (Serper key timeout url unreachable)) query n tr).1
       = inr [] /\
     (provider_search (UseTavily (Tavily key timeout url unreachable)) query n tr).1
       = inr []).
Proof.
  rewrite search_is_absorbed.
  destruct (absorbed (provider_try p query n) (provider_name p) tr) as [Hret Hcase].
  split_and!; try assumption.
  - destruct p as [d|d|d]; cbn in Hcase |- *.
    + intros items e Hfail.
      destruct (duckduckgo_failure d query n tr items e Hfail) as [e' He'].
      rewrite He' in Hcase. rewrite Hcase. reflexivity.
    + intros e Hfail.
      rewrite (serper_fetch_failure d query n tr e Hfail) in Hcase.
      rewrite Hcase. reflexivity.
    + intros e Hfail.
      rewrite (tavily_fetch_failure d query n tr e Hfail) in Hcase.
      rewrite Hcase. reflexivity.
  - intros key timeout url. split; reflexivity.
Qed.

(** An unreachable endpoint, and a client whose items are not dictionaries. *)
Example serper_unreachable :
  SerperSearch_search (Serper "key" 10 "https://google.serper.dev/search" unreachable)
                      "rocq" 5 [] =
    (inr [], [EvLog "error" (SearchFailed "serper" (Raised "connection refused"))]).
Proof. reflexivity. Qed.

Example duckduckgo_malformed_item :
  DuckDuckGoSearch_search (DuckDuckGo 10 (fun _ _ => ([VStr "oops"], None)))
                          "rocq" 5 [] =
    (inr [], [EvLog "error"
                (SearchFailed "duckduckgo" (AttributeError (VStr "oops") "get"))]).
Proof. reflexivity. Qed.

Example duckduckgo_three_hits :
  (DuckDuckGoSearch_search (DuckDuckGo 10 three_hits) "rocq" 2 []).1 =
    inr [ VDict {[ "title" := VStr "a"; "link" := VStr ""; "snippet" := VStr "" ]};
          VDict {[ "title" := VStr "b"; "link" := VStr ""; "snippet" := VStr "" ]} ].
Proof. vm_compute. reflexivity. Qed.

Lemma bind_ret_search (k : T (list value)) (tr : list event) :
  (results ← k; mret results) tr = k tr.
Proof. run_search. destruct (k tr) as [[e|l] tr']; reflexivity. Qed.

(** C10: a per-call limit of 0 is not applied.  [search(query, 0)] does what
    [search(query)] does, which is to ask the provider for the limit given to
    the constructor; only a limit other than 0 is passed on.  So a tool built
    with limit 3 over a client that has three results returns the three of
    them when it is asked for 0. *)
Theorem zero_limit_uses_default (tool : SearchTool) (query : string) (tr : list event) :
  SearchTool_search tool query (Some 0%Z) tr = SearchTool_search tool query None tr /\
  SearchTool_search tool query None tr =
    provider_search (provider tool) query (max_results tool)
      (tr ++ [EvLog "debug" (Searching query (max_results tool))]) /\
  (forall n, n ≠ 0%Z ->
     SearchTool_search tool query (Some n) tr =
       provider_search (provider tool) query n
         (tr ++ [EvLog "debug" (Searching query n)])) /\
  (exists results,
     (SearchTool_search (Tool 3 (UseDuckDuckGo (DuckDuckGo 10 three_hits)))
                        query (Some 0%Z) tr).1 = inr results /\
     length results = 3%nat).
Proof.
  assert (Hrun : forall limit,
            (log "debug" (Searching query limit);;
             results ← provider_search (provider tool) query limit;
             mret results) tr =
            provider_search (provider tool) query limit
              (tr ++ [EvLog "debug" (Searching query limit)])).
  { intros limit. unfold mbind at 1, M_bind at 1. unfold log at 1.
    apply bind_ret_search. }
  split_and!.
  - reflexivity.
  - apply Hrun.
  - intros n Hn. unfold SearchTool_search, or_int.
    destruct (Z.eqb_spec n 0); [contradiction |]. apply Hrun.
  - eexists. split; [vm_compute; reflexivity | reflexivity].
Qed.

(** * Further properties of the helpers and of the kernel *)

Import AgentHelpers Config Observations MoreExamples.

Lemma validate_input_cons (s : pydict) (f : string) (rest : list string) :
  validate_input s (f :: rest) =
    if provided s f then validate_input s rest
    else (false, Some ("Missing required field: " +:+ f)).
Proof.
  unfold provided. cbn. destruct (s !! f) as [[]|]; reflexivity.
Qed.

(** X1: [validate_input] accepts exactly when every required field is in the
    state with a value other than [None]; otherwise it names the first field
    of the list, in order, that is absent or [None]. *)
Theorem validate_input_first_missing (s : pydict) (fields : list string) :
  ((validate_input s fields).1 = true <-> forallb (provided s) fields = true) /\
  match validate_input s fields with
  | (true, reason) => reason = None
  | (false, reason) =>
      exists before f after,
        fields = before ++ f :: after /\
        forallb (provided s) before = true /\
        provided s f = false /\
        reason = Some ("Missing required field: " +:+ f)
  end.
Proof.
  induction fields as [|f rest [IHiff IHcase]].
  - split; [split; reflexivity | reflexivity].
  - rewrite validate_input_cons. cbn [forallb].
    destruct (provided s f) eqn:Hf; cbn [andb].
    + split; [exact IHiff |].
      destruct (validate_input s rest) as [[] reason]; [exact IHcase |].
      destruct IHcase as (before & g & after & -> & Hb & Hg & ->).
      exists (f :: before), g, after. cbn [forallb]. rewrite Hf, Hb. auto.
    + split; [split; discriminate |].
      exists [], f, rest. auto.
Qed.

(** X2: checking two lists of fields one after the other is checking their
    concatenation: the second list is looked at only when the first passes. *)
Theorem validate_input_app (s : pydict) (first second : list string) :
  validate_input s (first ++ second) =
    if (validate_input s first).1 then validate_input s second
    else validate_input s first.
Proof.
  induction first as [|f rest IH]; [reflexivity |].
  rewrite <- app_comm_cons, !validate_input_cons.
  destruct (provided s f); [exact IH | reflexivity].
Qed.

(** X3: a state that [validate_state] accepts is accepted by
    [validate_input] for the field [topic]; the converse fails, an empty
    topic is enough for [validate_input]. *)
Theorem validate_state_implies_validate_input (s : pydict) :
  Schema.validate_state s = inr (true, None) ->
  validate_input s ["topic"] = (true, None) /\
  validate_input (<["topic" := VStr ""]> s) ["topic"] = (true, None) /\
  Schema.validate_state (<["topic" := VStr ""]> s) ≠ inr (true, None).
Proof.
  intros Hok. split_and!.
  - destruct (s !! "topic") as [topic|] eqn:Ht.
    + rewrite (validate_state_present s topic Ht) in Hok.
      rewrite validate_input_cons. unfold provided. rewrite Ht.
      destruct topic; try reflexivity. discriminate.
    + rewrite (validate_state_absent s Ht) in Hok. discriminate.
  - rewrite validate_input_cons. unfold provided.
    rewrite lookup_insert_eq. reflexivity.
  - rewrite (validate_state_string _ "" (lookup_insert_eq _ _ _)). discriminate.
Qed.

Lemma validate_state_implies_validate_input_witness :
  validate_input {[ "topic" := VStr "rocq" ]} ["topic"] = (true, None).
Proof.
  apply (validate_state_implies_validate_input {[ "topic" := VStr "rocq" ]}).
  reflexivity.
Defined.

(** X4: [validate_state] raises instead of returning a verdict exactly when
    the topic is a truthy value without a length (a number other than zero,
    [True], a date); it never raises on a state whose topic is a string, a
    list or a dictionary, or that has no topic. *)
Theorem validate_state_raises (s : pydict) :
  (exists e, Schema.validate_state s = inl e) <->
  (exists v, s !! "topic" = Some v /\ truthy v = true /\ unsized v = true).
Proof.
  destruct (s !! "topic") as [v|] eqn:Ht.
  - rewrite (validate_state_present s v Ht). split.
    + intros [e He]. exists v. destruct (truthy v); [| discriminate].
      split_and!; try reflexivity.
      destruct v; cbn in He |- *; try reflexivity;
        repeat (match type of He with
                | context [if ?b then _ else _] => destruct b
                end); discriminate.
    + intros (v' & Hv & Htr & Hun). injection Hv as <-. rewrite Htr.
      destruct v; try discriminate; eexists; reflexivity.
  - rewrite (validate_state_absent s Ht). split.
    + intros [e He]. discriminate.
    + intros (v & Hv & _). discriminate.
Qed.

Lemma update_status_untyped a s w st v :
  s !! "agent_status" = Some v ->
  is_dict v = false ->
  _update_status st (Machine a s w) = (inl (TypeError "[]=" v), Machine a s w).
Proof.
  intros Hs Hv. unfold _update_status, subscript. run.
  rewrite bool_decide_eq_false_2 by (rewrite Hs; discriminate). cbn. rewrite Hs.
  destruct v; try discriminate; reflexivity.
Qed.

Lemma untyped_lookup (o : option value) :
  dict_or_absent o = false -> exists v, o = Some v /\ is_dict v = false.
Proof. destruct o as [[]|]; try discriminate; eauto. Qed.

Lemma unpack_untyped (v : value) :
  is_dict v = false -> unpack v = inl (TypeError "**" v).
Proof. destruct v; try discriminate; reflexivity. Qed.

Lemma typed_times (s : pydict) :
  dict_or_absent (s !! "execution_time") = true ->
  dict_get s "execution_time" (VDict ∅) = VDict (times_of s).
Proof.
  unfold dict_get, times_of. destruct (s !! "execution_time") as [[]|];
    try discriminate; reflexivity.
Qed.

Lemma typed_errors (s : pydict) :
  list_or_absent (s !! "error_log") = true ->
  dict_get s "error_log" (VList []) = VList (errors_of s).
Proof.
  unfold dict_get, errors_of. destruct (s !! "error_log") as [[]|];
    try discriminate; reflexivity.
Qed.

Lemma unpack_get_untyped (s : pydict) (k : string) :
  dict_or_absent (s !! k) = false ->
  unpack (dict_get s k (VDict ∅)) = inl (TypeError "**" (dict_get s k (VDict ∅))).
Proof.
  intros H. apply untyped_lookup in H as (v & Hv & Hd).
  unfold dict_get. rewrite Hv. apply unpack_untyped, Hd.
Qed.

Lemma add_list_untyped (s : pydict) (k : string) (l : list value) :
  list_or_absent (s !! k) = false ->
  add_list (dict_get s k (VList [])) l = inl (TypeError "+" (dict_get s k (VList []))).
Proof.
  unfold dict_get. destruct (s !! k) as [[]|]; try discriminate; reflexivity.
Qed.

(** The result of a call, by the typing of the three metadata entries and
    the outcome of the domain logic. *)
Lemma call_result (a : BaseAgent) (s : pydict) (w : world) :
  result_of_call a s w =
    if dict_or_absent (s !! "agent_status") then
      match execute a (with_status (name a) IN_PROGRESS s) with
      | inr r =>
          if dict_or_absent (s !! "execution_time")
          then inr (success_update a s w r)
          else if list_or_absent (s !! "error_log")
               then inl (TypeError "**" (dict_get s "execution_time" (VDict ∅)))
               else inl (TypeError "+" (dict_get s "error_log" (VList [])))
      | inl e =>
          if list_or_absent (s !! "error_log")
          then if dict_or_absent (s !! "execution_time")
               then inr (failure_update a s w e)
               else inl (TypeError "**" (dict_get s "execution_time" (VDict ∅)))
          else inl (TypeError "+" (dict_get s "error_log" (VList [])))
      end
    else inl (TypeError "**" (dict_get s "agent_status" (VDict ∅))).
Proof.
  unfold result_of_call.
  destruct (with_status_get (name a) IN_PROGRESS s) as (Hg1 & Hg2 & Hg3).
  destruct (dict_or_absent (s !! "agent_status")) eqn:Hst.
  - unfold BaseAgent_call, try_except, call_execute. run.
    rewrite update_status_typed by assumption. cbn.
    destruct (execute a (with_status (name a) IN_PROGRESS s)) as [e|r]; cbn.
    + rewrite Hg1, Hg3. cbn.
      destruct (list_or_absent (s !! "error_log")) eqn:Hl.
      * rewrite (typed_errors s Hl). cbn. rewrite Hg2.
        destruct (dict_or_absent (s !! "execution_time")) eqn:Ht.
        -- rewrite (typed_times s Ht). cbn. rewrite insert_insert_eq. reflexivity.
        -- rewrite (unpack_get_untyped s _ Ht). reflexivity.
      * rewrite (add_list_untyped s _ _ Hl). reflexivity.
    + rewrite Hg2.
      destruct (dict_or_absent (s !! "execution_time")) eqn:Ht.
      * rewrite (typed_times s Ht). cbn. rewrite Hg1. cbn.
        rewrite insert_insert_eq. reflexivity.
      * rewrite (unpack_get_untyped s _ Ht). cbn. rewrite Hg1, Hg3. cbn.
        destruct (list_or_absent (s !! "error_log")) eqn:Hl.
        -- rewrite (typed_errors s Hl). cbn. rewrite Hg2.
           rewrite (unpack_get_untyped s _ Ht). reflexivity.
        -- rewrite (add_list_untyped s _ _ Hl). reflexivity.
  - pose proof (untyped_lookup _ Hst) as (v & Hv & Hd).
    unfold BaseAgent_call, try_except, call_execute. run.
    rewrite (update_status_untyped _ _ _ _ v Hv Hd). cbn.
    rewrite (unpack_get_untyped s _ Hst). reflexivity.
Qed.

Lemma returns_of_call (a : BaseAgent) (s : pydict) (w : world) :
  returns (result_of_call a s w) =
    dict_or_absent (s !! "agent_status") &&
    dict_or_absent (s !! "execution_time") &&
    (succeeds a s || list_or_absent (s !! "error_log")).
Proof.
  rewrite call_result. unfold succeeds.
  destruct (dict_or_absent (s !! "agent_status"));
    [destruct (execute a (with_status (name a) IN_PROGRESS s)) |];
    destruct (dict_or_absent (s !! "execution_time"));
    destruct (list_or_absent (s !! "error_log")); reflexivity.
Qed.

(** X5: the call returns an update exactly when [agent_status] and
    [execution_time] are dictionaries (or absent) and, unless the domain
    logic succeeds, [error_log] is a list (or absent).  When the call raises,
    the exception is the interpreter's [TypeError] on an ill-typed entry of
    the state, whatever the domain logic did. *)
Theorem call_returns_iff (a : BaseAgent) (s : pydict) (w : world) :
  returns (result_of_call a s w) =
    dict_or_absent (s !! "agent_status") &&
    dict_or_absent (s !! "execution_time") &&
    (succeeds a s || list_or_absent (s !! "error_log")) /\
  (forall e, result_of_call a s w = inl e ->
             exists key default,
               e = TypeError (if String.eqb key "error_log" then "+" else "**")
                             (dict_get s key default) /\
               key ∈ ["agent_status"; "execution_time"; "error_log"]).
Proof.
  rewrite call_result. unfold succeeds.
  destruct (dict_or_absent (s !! "agent_status"));
    [destruct (execute a (with_status (name a) IN_PROGRESS s)) as [e0|r] |];
    destruct (dict_or_absent (s !! "execution_time"));
    destruct (list_or_absent (s !! "error_log")); cbn;
    (split; [reflexivity |]); intros e He; try discriminate;
    injection He as <-;
    first [ exists "agent_status", (VDict ∅); split;
              [reflexivity | apply (bool_decide_unpack _); reflexivity]
          | exists "execution_time", (VDict ∅); split;
              [reflexivity | apply (bool_decide_unpack _); reflexivity]
          | exists "error_log", (VList []); split;
              [reflexivity | apply (bool_decide_unpack _); reflexivity] ].
Qed.

(** X6: after a failed call on a well-typed state the state object the
    caller passed still says [in_progress] for the agent: the status failed
    is in the returned update only.  Nothing else of the state object is
    written: the other keys and the statuses of the other agents are as
    before. *)
Theorem state_object_left_in_progress (a : BaseAgent) (s : pydict) (w : world) :
  metadata_typed s = true ->
  succeeds a s = false ->
  exists upd,
    result_of_call a s w = inr upd /\
    upd !! "agent_status" =
      Some (VDict (<[name a := VStatus FAILED]> (statuses_of s))) /\
    statuses_of (state_after_call a s w) !! name a = Some (VStatus IN_PROGRESS) /\
    (forall other, other ≠ name a ->
       statuses_of (state_after_call a s w) !! other = statuses_of s !! other) /\
    (forall k, k ≠ "agent_status" -> state_after_call a s w !! k = s !! k).
Proof.
  intros Ht Hfail. unfold result_of_call, state_after_call.
  unfold succeeds in Hfail.
  assert (Hst : statuses_of (with_status (name a) IN_PROGRESS s) =
                <[name a := VStatus IN_PROGRESS]> (statuses_of s)).
  { unfold statuses_of at 1, with_status. rewrite lookup_insert_eq. reflexivity. }
  destruct (execute a (with_status (name a) IN_PROGRESS s)) as [e|r] eqn:Hr;
    [| discriminate].
  exists (failure_update a s w e).
  rewrite (call_failure a s w e Ht Hr). cbn. rewrite Hst.
  split_and!; try reflexivity.
  - apply lookup_insert_eq.
  - intros other Ho. apply lookup_insert_ne. congruence.
  - intros k Hk. apply lookup_insert_ne. congruence.
Qed.

Lemma state_object_left_in_progress_witness :
  exists upd,
    result_of_call researcher rerun_state ticking = inr upd /\
    upd !! "agent_status" =
      Some (VDict (<["Researcher" := VStatus FAILED]> (statuses_of rerun_state))) /\
    statuses_of (state_after_call researcher rerun_state ticking) !! "Researcher" =
      Some (VStatus IN_PROGRESS).
Proof.
  destruct (state_object_left_in_progress researcher rerun_state ticking)
    as (upd & Hres & Hupd & Hobj & _); [reflexivity | reflexivity |].
  exists upd. split_and!; assumption.
Defined.

Lemma calls_keep_agent (a : BaseAgent) (inputs : list (pydict * world)) :
  agent_after_calls a inputs =
    Agent (name a) (config a)
          (execution_count a + Z.of_nat (length inputs)) (execute a).
Proof.
  revert a. induction inputs as [|[s w] rest IH]; intros a.
  - cbn. rewrite Z.add_0_r. destruct a; reflexivity.
  - cbn [agent_after_calls length]. rewrite IH, call_counts. cbn.
    f_equal. lia.
Qed.

(** X7: whatever the states, the worlds and the outcomes (a call that raises
    included), a sequence of calls changes nothing of the agent object but
    its counter, which grows by the number of calls: the name, the
    configuration (hence [get_config]) and the domain logic are the same. *)
Theorem calls_only_count (a : BaseAgent) (inputs : list (pydict * world)) :
  let a' := agent_after_calls a inputs in
  execution_count a' = (execution_count a + Z.of_nat (length inputs))%Z /\
  name a' = name a /\
  config a' = config a /\
  execute a' = execute a /\
  (forall key default, get_config a' key default = get_config a key default).
Proof.
  cbn zeta. rewrite calls_keep_agent. split_and!; reflexivity.
Qed.

Lemma typed_after_fold (s upd : pydict) (d1 d2 : pydict) :
  upd !! "agent_status" = Some (VDict d1) ->
  upd !! "execution_time" = Some (VDict d2) ->
  list_or_absent (apply_update s upd !! "error_log") = true ->
  metadata_typed (apply_update s upd) = true.
Proof.
  intros H1 H2 H3. unfold metadata_typed, apply_update in *.
  rewrite (lookup_union_Some_l _ _ _ _ H1), (lookup_union_Some_l _ _ _ _ H2), H3.
  reflexivity.
Qed.

(** X8: folding the returned update into the state keeps the metadata well
    typed (the agent not returning an [error_log] of its own), so the next
    call on the folded state returns as well: the typing the kernel relies
    on is an invariant of a run. *)
Theorem fold_keeps_metadata_typed (a b : BaseAgent) (s : pydict) (w w' : world) :
  metadata_typed s = true ->
  leaves_error_log a s ->
  exists upd,
    result_of_call a s w = inr upd /\
    metadata_typed (apply_update (state_after_call a s w) upd) = true /\
    returns (result_of_call b (apply_update (state_after_call a s w) upd) w') = true.
Proof.
  intros Ht Hrule.
  assert (Hgoal : exists upd,
            result_of_call a s w = inr upd /\
            metadata_typed (apply_update (state_after_call a s w) upd) = true).
  { unfold leaves_error_log in Hrule. unfold result_of_call, state_after_call.
    destruct (execute a (with_status (name a) IN_PROGRESS s)) as [e|r] eqn:Hr.
    - exists (failure_update a s w e). rewrite (call_failure a s w e Ht Hr). cbn.
      split; [reflexivity |].
      destruct (failure_update_lookup a s w e) as (H1 & H2 & H3 & _).
      eapply typed_after_fold; eauto.
      unfold apply_update. rewrite (lookup_union_Some_l _ _ _ _ H2). reflexivity.
    - exists (success_update a s w r). rewrite (call_success a s w r Ht Hr). cbn.
      split; [reflexivity |].
      destruct (success_update_kernel a s w r) as (_ & _ & H2 & H1).
      eapply typed_after_fold; eauto.
      unfold apply_update. rewrite lookup_union_r.
      + unfold with_status. rewrite lookup_insert_ne by discriminate.
        unfold metadata_typed in Ht. apply andb_prop in Ht as [_ Ht]. exact Ht.
      + rewrite success_update_other; [assumption |]. unfold kernel_keys.
        repeat (apply not_elem_of_cons; split; [discriminate |]).
        apply not_elem_of_nil. }
  destruct Hgoal as (upd & Hres & Htyped). exists upd.
  split_and!; try assumption.
  rewrite (returns_of_call b (apply_update (state_after_call a s w) upd) w').
  unfold metadata_typed in Htyped.
  apply andb_prop in Htyped as [Htyped ->]. rewrite Htyped.
  rewrite orb_true_r. reflexivity.
Qed.

Lemma fold_keeps_metadata_typed_witness :
  exists upd,
    result_of_call researcher rerun_state ticking = inr upd /\
    returns (result_of_call writer
               (apply_update (state_after_call researcher rerun_state ticking) upd)
               ticking) = true.
Proof.
  destruct (fold_keeps_metadata_typed researcher writer rerun_state ticking ticking)
    as (upd & Hres & _ & Hnext); [reflexivity | exact I |].
  exists upd. split; assumption.
Defined.

Lemma initial_state_lookup topic requirements audience tone words w :
  exists st,
    Schema.create_initial_state topic requirements audience tone words w =
      (inr st, (read_now w).2) /\
    st !! "topic" = Some (VStr topic) /\
    st !! "agent_status" = Some (VDict ∅) /\
    st !! "execution_time" = Some (VDict ∅) /\
    st !! "error_log" = Some (VList []).
Proof. eexists. split_and!; reflexivity. Qed.

(** X9: a state made by [create_initial_state] is accepted by
    [validate_state] exactly when its topic has from 3 to 200 characters,
    whatever the other arguments; the validation never raises on it. *)
Theorem initial_state_validates (topic : string) (requirements : option string)
    (audience tone : string) (words : Z) (w : world) :
  exists st,
    (Schema.create_initial_state topic requirements audience tone words w).1 = inr st /\
    (Schema.validate_state st = inr (true, None) <->
     (3 <= String.length topic <= 200)%nat) /\
    (exists verdict, Schema.validate_state st = inr verdict).
Proof.
  destruct (initial_state_lookup topic requirements audience tone words w)
    as (st & Hmake & Htopic & _).
  exists st. rewrite Hmake. split; [reflexivity |].
  rewrite (validate_state_string st topic Htopic).
  destruct (String.eqb topic "") eqn:He.
  { apply eqb_empty_length in He. split; [split; [discriminate | lia] | eauto]. }
  destruct (Nat.ltb_spec (String.length topic) 3);
    [split; [split; [discriminate | lia] | eauto] |].
  destruct (Nat.ltb_spec 200 (String.length topic));
    [split; [split; [discriminate | lia] | eauto] |].
  split; [split; [lia | reflexivity] | eauto].
Qed.

(** X10: the first call of any agent on a state made by
    [create_initial_state] returns, whatever the arguments and the world: its
    update holds the agent as the only entry of [agent_status] and of
    [execution_time], and on failure an error log of exactly one entry. *)
Theorem first_call_on_initial_state (a : BaseAgent) (topic : string)
    (requirements : option string) (audience tone : string) (words : Z)
    (w0 w : world) :
  exists st upd,
    (Schema.create_initial_state topic requirements audience tone words w0).1 = inr st /\
    result_of_call a st w = inr upd /\
    upd !! "agent_status" =
      Some (VDict {[ name a := VStatus (if succeeds a st then COMPLETED else FAILED) ]}) /\
    upd !! "execution_time" = Some (VDict {[ name a := VFloat (elapsed w) ]}) /\
    (succeeds a st = true \/
     exists entry, upd !! "error_log" = Some (VList [VDict entry]) /\
                   entry !! "agent" = Some (VStr (name a))).
Proof.
  destruct (initial_state_lookup topic requirements audience tone words w0)
    as (st & Hmake & _ & Hst & Htime & Hlog).
  exists st. rewrite Hmake.
  assert (Ht : metadata_typed st = true).
  { unfold metadata_typed. rewrite Hst, Htime, Hlog. reflexivity. }
  assert (Hs : statuses_of st = ∅) by (unfold statuses_of; rewrite Hst; reflexivity).
  assert (Hm : times_of st = ∅) by (unfold times_of; rewrite Htime; reflexivity).
  assert (He : errors_of st = []) by (unfold errors_of; rewrite Hlog; reflexivity).
  unfold result_of_call, succeeds.
  destruct (execute a (with_status (name a) IN_PROGRESS st)) as [e|r] eqn:Hr.
  - exists (failure_update a st w e). rewrite (call_failure a st w e Ht Hr).
    destruct (failure_update_lookup a st w e) as (H1 & H2 & H3 & _).
    rewrite Hs in H1. rewrite Hm in H3. rewrite He in H2.
    split_and!; try reflexivity; try assumption.
    right. eexists. split; [exact H2 |]. apply error_entry_lookup.
  - exists (success_update a st w r). rewrite (call_success a st w r Ht Hr).
    destruct (success_update_kernel a st w r) as (_ & _ & H3 & H1).
    rewrite Hs in H1. rewrite Hm in H3.
    split_and!; try reflexivity; try assumption. left. reflexivity.
Qed.

(** X11: a skipped call returns exactly when [agent_status] is a dictionary
    or absent; it does not read [execution_time] or [error_log], so their
    typing does not matter.  On an ill-typed [agent_status] the skip raises
    the interpreter's [TypeError] to the caller: the skip branch is outside
    the kernel's handler, and nothing is recorded but the skip log line. *)
Theorem skip_returns_iff (c : ConditionalAgent) (s : pydict) (w : world) :
  should_execute c s = false ->
  returns (conditional_call c s w).1 = dict_or_absent (s !! "agent_status") /\
  (conditional_call c s w).2 =
    Machine (base c) s (emit (EvLog "info" (Skipped (name (base c)))) w) /\
  (forall e, (conditional_call c s w).1 = inl e ->
             e = TypeError "**" (dict_get s "agent_status" (VDict ∅))).
Proof.
  intros Hskip. unfold conditional_call, ConditionalAgent_call. run.
  rewrite Hskip. cbn. unfold dict_get.
  destruct (s !! "agent_status") as [v|]; [destruct v |]; cbn;
    split_and!; try reflexivity; intros e He; try discriminate;
    injection He as <-; reflexivity.
Qed.

Lemma skip_returns_iff_witness :
  returns (conditional_call gated {[ "agent_status" := VNone;
                                     "error_log" := VNone ]} ticking).1 = false /\
  returns (conditional_call gated {[ "error_log" := VNone ]} ticking).1 = true.
Proof.
  split.
  - destruct (skip_returns_iff gated {[ "agent_status" := VNone;
                                        "error_log" := VNone ]} ticking)
      as [-> _]; reflexivity.
  - destruct (skip_returns_iff gated {[ "error_log" := VNone ]} ticking)
      as [-> _]; reflexivity.
Defined.

(** * Further properties of the search providers *)

Lemma result_of_dict (link_key snippet_key : string) (item : value) :
  result_of link_key snippet_key item =
    if is_dict item then inr (normalized link_key snippet_key (as_dict item))
    else inl (AttributeError item "get").
Proof. destruct item; reflexivity. Qed.

(** The result loop, as a map over the items up to the first one that is not
    a dictionary. *)
Lemma collect_spec (link_key snippet_key : string) (items acc : list value) :
  collect link_key snippet_key items acc =
    match List.find (fun v => negb (is_dict v)) items with
    | Some bad => inl (AttributeError bad "get")
    | None =>
        inr (acc ++ map (fun v => normalized link_key snippet_key (as_dict v)) items)
    end.
Proof.
  revert acc. induction items as [|item rest IH]; intros acc; cbn.
  - rewrite app_nil_r. reflexivity.
  - rewrite result_of_dict. destruct (is_dict item); cbn; [| reflexivity].
    rewrite IH. destruct (List.find _ rest); [reflexivity |].
    rewrite <- app_assoc. reflexivity.
Qed.

Lemma find_none_forallb (items : list value) :
  List.find (fun v => negb (is_dict v)) items = None <->
  forallb is_dict items = true.
Proof.
  induction items as [|v rest IH]; cbn; [tauto |].
  destruct (is_dict v); cbn; [exact IH | split; discriminate].
Qed.

(** X12: the DuckDuckGo provider is all or nothing.  When every item the
    client yields is a dictionary and the client does not fail, the results
    are the items in order, one record each, with [href] and [body] renamed
    and missing fields defaulting to the empty string: as many as the client
    yields, the provider does not cut them to [max_results] itself.  In every
    other case, one malformed item included, the result is the empty list. *)
Theorem duckduckgo_all_or_nothing (d : DuckDuckGoSearch) (query : string) (n : Z)
    (tr : list event) :
  (DuckDuckGoSearch_search d query n tr).1 =
    inr (let (items, failure) := ddgs d query n in
         if forallb is_dict items && bool_decide (failure = None)
         then map (fun v => normalized "href" "body" (as_dict v)) items
         else []).
Proof.
  unfold DuckDuckGoSearch_search, try_except, DuckDuckGoSearch_try.
  destruct (ddgs d query n) as [items failure]. run_search.
  rewrite collect_spec.
  destruct (forallb is_dict items) eqn:Hall.
  - apply find_none_forallb in Hall. rewrite Hall. cbn.
    destruct failure; reflexivity.
  - destruct (List.find _ items) eqn:Hfind; [reflexivity |].
    apply find_none_forallb in Hfind. congruence.
Qed.

Lemma collect_records (link_key snippet_key : string) (items results : list value) :
  collect link_key snippet_key items [] = inr results ->
  Forall (fun r => exists title link snippet, r = record title link snippet) results /\
  length results = length items.
Proof.
  rewrite collect_spec. destruct (List.find _ items); [discriminate |].
  intros H. injection H as <-. cbn. split.
  - apply Forall_map, Forall_forall. intros v _. unfold normalized. eauto.
  - apply length_map.
Qed.

Lemma length_slice_to {A} (n : Z) (l : list A) :
  (0 <= n)%Z -> (length (slice_to n l) <= Z.to_nat n)%nat.
Proof.
  intros Hn. unfold slice_to. destruct (Z.leb_spec 0 n); [| lia].
  rewrite length_take. lia.
Qed.

Lemma sliced_items_bound (v : value) (n : Z) (items : list value) :
  (0 <= n)%Z -> sliced_items v n = inr items -> (length items <= Z.to_nat n)%nat.
Proof.
  intros Hn H. destruct v; cbn in H; try discriminate;
    injection H as <-; apply length_slice_to, Hn.
Qed.

(** What the [try] block of a provider returns, when it returns. *)
Lemma try_returns (p : SearchProvider) (query : string) (n : Z)
    (tr tr' : list event) (results : list value) :
  provider_try p query n tr = (inr results, tr') ->
  Forall (fun r => exists title link snippet, r = record title link snippet) results /\
  (match p with
   | UseDuckDuckGo _ => True
   | _ => (0 <= n)%Z -> (length results <= Z.to_nat n)%nat
   end).
Proof.
  destruct p as [d|d|d]; cbn [provider_try].
  - unfold DuckDuckGoSearch_try. destruct (ddgs d query n) as [items failure].
    run_search. destruct (collect "href" "body" items []) as [e|l] eqn:Hc;
      [discriminate |].
    destruct failure; [discriminate |]. intros H. injection H as <- _.
    split; [apply (collect_records _ _ _ _ Hc) | exact I].
  - unfold SerperSearch_try, raise_for_status. run_search.
    destruct (serper_session d _ _ _ _) as [e|resp]; [discriminate |].
    destruct ((400 <=? status_code resp) && (status_code resp <? 600))%Z; cbn;
      [discriminate |].
    destruct (json resp) as [e|data]; [discriminate |].
    destruct (get_method data "organic" (VList [])) as [e|organic]; [discriminate |].
    destruct (sliced_items organic n) as [e|items] eqn:Hs; [discriminate |].
    destruct (collect "link" "snippet" items []) as [e|l] eqn:Hc; [discriminate |].
    intros H. injection H as <- _.
    destruct (collect_records _ _ _ _ Hc) as [Hrec Hlen].
    split; [exact Hrec |]. intros Hn. rewrite Hlen.
    apply (sliced_items_bound organic n items Hn Hs).
  - unfold TavilySearch_try, raise_for_status. run_search.
    destruct (tavily_session d _ _ _ _) as [e|resp]; [discriminate |].
    destruct ((400 <=? status_code resp) && (status_code resp <? 600))%Z; cbn;
      [discriminate |].
    destruct (json resp) as [e|data]; [discriminate |].
    destruct (get_method data "results" (VList [])) as [e|found]; [discriminate |].
    destruct (sliced_items found n) as [e|items] eqn:Hs; [discriminate |].
    destruct (collect "url" "content" items []) as [e|l] eqn:Hc; [discriminate |].
    intros H. injection H as <- _.
    destruct (collect_records _ _ _ _ Hc) as [Hrec Hlen].
    split; [exact Hrec |]. intros Hn. rewrite Hlen.
    apply (sliced_items_bound found n items Hn Hs).
Qed.

Lemma search_results (p : SearchProvider) (query : string) (n : Z) (tr : list event) :
  exists results tr',
    provider_search p query n tr = (inr results, tr') /\
    (results = [] \/ exists tr1, provider_try p query n tr = (inr results, tr1)).
Proof.
  rewrite search_is_absorbed.
  destruct (absorbed (provider_try p query n) (provider_name p) tr) as [_ Hcase].
  destruct (provider_try p query n tr) as [[e|results] tr1]; rewrite Hcase.
  - eexists _, _. split; [reflexivity | left; reflexivity].
  - eexists _, _. split; [reflexivity | right; eexists; reflexivity].
Qed.

(** X13: every element of the list a provider returns, whatever the backend
    sent, is a dictionary with exactly the keys [title], [link] and
    [snippet]. *)
Theorem results_are_records (p : SearchProvider) (query : string) (n : Z)
    (tr : list event) :
  exists results,
    (provider_search p query n tr).1 = inr results /\
    Forall (fun r => exists title link snippet,
                       r = VDict {[ "title" := title; "link" := link;
                                    "snippet" := snippet ]}) results.
Proof.
  destruct (search_results p query n tr) as (results & tr' & Hres & Hcase).
  exists results. rewrite Hres. split; [reflexivity |].
  destruct Hcase as [-> | [tr1 Htry]]; [constructor |].
  apply (try_returns p query n tr tr1 results Htry).
Qed.

(** X14: for a limit that is not negative, the Serper and the Tavily provider
    never return more results than the limit, whatever the response holds. *)
Theorem keyed_providers_respect_limit (p : SearchProvider) (query : string) (n : Z)
    (tr : list event) :
  (0 <= n)%Z ->
  provider_name p ≠ "duckduckgo" ->
  exists results,
    (provider_search p query n tr).1 = inr results /\
    (length results <= Z.to_nat n)%nat.
Proof.
  intros Hn Hp.
  destruct (search_results p query n tr) as (results & tr' & Hres & Hcase).
  exists results. rewrite Hres. split; [reflexivity |].
  destruct Hcase as [-> | [tr1 Htry]]; [cbn; lia |].
  destruct (try_returns p query n tr tr1 results Htry) as [_ Hbound].
  destruct p; [contradiction Hp; reflexivity | auto | auto].
Qed.

Lemma keyed_providers_respect_limit_witness :
  exists results,
    (provider_search (UseSerper serper_two) "rocq" 1 []).1 = inr results /\
    (length results <= 1)%nat.
Proof.
  apply (keyed_providers_respect_limit (UseSerper serper_two) "rocq" 1 []).
  - lia.
  - discriminate.
Defined.

Lemma serper_try_fetched (d : SerperSearch) (query : string) (n : Z) (tr : list event) :
  SerperSearch_try d query n tr =
    match fetched (serper_session d) (serper_base_url d)
                  {[ "q" := VStr query; "num" := VInt n ]}
                  (Some {[ "X-API-KEY" := Search.serper_api_key d;
                           "Content-Type" := "application/json" ]})
                  (serper_timeout d) with
    | inl e => (inl e, tr)
    | inr data => digest "serper" "organic" "link" "snippet" data n tr
    end.
Proof.
  unfold fetched, SerperSearch_try, raise_for_status, digest. run_search.
  destruct (serper_session d _ _ _ _) as [e|resp]; [reflexivity |].
  destruct ((400 <=? status_code resp) && (status_code resp <? 600))%Z; cbn;
    [reflexivity |].
  destruct (json resp) as [e|data]; [reflexivity |].
  destruct (get_method data "organic" (VList [])) as [e|hits]; [reflexivity |].
  destruct (sliced_items hits n) as [e|items]; [reflexivity |].
  destruct (collect "link" "snippet" items []); reflexivity.
Qed.

Lemma tavily_try_fetched (d : TavilySearch) (query : string) (n : Z) (tr : list event) :
  TavilySearch_try d query n tr =
    match fetched (tavily_session d) (tavily_base_url d)
                  {[ "api_key" := VStr (Search.tavily_api_key d);
                     "query" := VStr query;
                     "max_results" := VInt n;
                     "search_depth" := VStr "advanced" ]}
                  None (tavily_timeout d) with
    | inl e => (inl e, tr)
    | inr data => digest "tavily" "results" "url" "content" data n tr
    end.
Proof.
  unfold fetched, TavilySearch_try, raise_for_status, digest. run_search.
  destruct (tavily_session d _ _ _ _) as [e|resp]; [reflexivity |].
  destruct ((400 <=? status_code resp) && (status_code resp <? 600))%Z; cbn;
    [reflexivity |].
  destruct (json resp) as [e|data]; [reflexivity |].
  destruct (get_method data "results" (VList [])) as [e|hits]; [reflexivity |].
  destruct (sliced_items hits n) as [e|items]; [reflexivity |].
  destruct (collect "url" "content" items []); reflexivity.
Qed.

Lemma digest_well_formed (provider list_key link_key snippet_key : string)
    (body : pydict) (hits : list value) (n : Z) (tr : list event) :
  dict_get body list_key (VList []) = VList hits ->
  forallb is_dict (slice_to n hits) = true ->
  digest provider list_key link_key snippet_key (VDict body) n tr =
    (inr (map (fun v => normalized link_key snippet_key (as_dict v)) (slice_to n hits)),
     tr ++ [EvLog "info" (Found provider (length (slice_to n hits)) None)]).
Proof.
  intros Hhits Hall. unfold digest. cbn. rewrite Hhits. cbn.
  rewrite collect_spec. apply find_none_forallb in Hall. rewrite Hall. cbn.
  rewrite length_map. reflexivity.
Qed.

(** X15: when the request succeeds and the body is a dictionary whose
    [organic] entry is a list, the Serper provider returns one record for
    each of the first [max_results] hits, in order, [link] and [snippet]
    kept and missing fields defaulting to the empty string, and logs their
    number.  Only the hits within the limit have to be dictionaries: what
    lies beyond it is not looked at. *)
Theorem serper_well_formed (d : SerperSearch) (query : string) (n : Z)
    (tr : list event) (body : pydict) (hits : list value) :
  fetched (serper_session d) (serper_base_url d)
          {[ "q" := VStr query; "num" := VInt n ]}
          (Some {[ "X-API-KEY" := Search.serper_api_key d;
                   "Content-Type" := "application/json" ]})
          (serper_timeout d) = inr (VDict body) ->
  dict_get body "organic" (VList []) = VList hits ->
  forallb is_dict (slice_to n hits) = true ->
  SerperSearch_search d query n tr =
    (inr (map (fun v => normalized "link" "snippet" (as_dict v)) (slice_to n hits)),
     tr ++ [EvLog "info" (Found "serper" (length (slice_to n hits)) None)]).
Proof.
  intros Hfetch Hhits Hall. unfold SerperSearch_search, try_except.
  rewrite serper_try_fetched, Hfetch.
  rewrite (digest_well_formed _ _ _ _ body hits n tr Hhits Hall). reflexivity.
Qed.

Lemma serper_well_formed_witness :
  (SerperSearch_search serper_two "rocq" 1 []).1 =
    inr [record (VStr "a") (VStr "u") (VStr "")].
Proof.
  rewrite (serper_well_formed serper_two "rocq" 1 []
             {[ "organic" :=
                  VList [VDict {[ "title" := VStr "a"; "link" := VStr "u" ]};
                         VDict {[ "title" := VStr "b" ]}] ]}
             [VDict {[ "title" := VStr "a"; "link" := VStr "u" ]};
              VDict {[ "title" := VStr "b" ]}]);
    reflexivity.
Defined.

(** X16: an answer without hits is not a failure.  When the request succeeds
    and the body is a dictionary that has no [organic] key (for Tavily, no
    [results] key), the provider returns the empty list and logs that it
    found 0 results, at level info: no error record is written. *)
Theorem missing_hits_is_not_an_error (query : string) (n : Z) (tr : list event)
    (body : pydict) :
  (forall d : SerperSearch,
     fetched (serper_session d) (serper_base_url d)
             {[ "q" := VStr query; "num" := VInt n ]}
             (Some {[ "X-API-KEY" := Search.serper_api_key d;
                      "Content-Type" := "application/json" ]})
             (serper_timeout d) = inr (VDict body) ->
     body !! "organic" = None ->
     SerperSearch_search d query n tr =
       (inr [], tr ++ [EvLog "info" (Found "serper" 0 None)])) /\
  (forall d : TavilySearch,
     fetched (tavily_session d) (tavily_base_url d)
             {[ "api_key" := VStr (Search.tavily_api_key d);
                "query" := VStr query;
                "max_results" := VInt n;
                "search_depth" := VStr "advanced" ]}
             None (tavily_timeout d) = inr (VDict body) ->
     body !! "results" = None ->
     TavilySearch_search d query n tr =
       (inr [], tr ++ [EvLog "info" (Found "tavily" 0 None)])).
Proof.
  assert (Hempty : forall m, slice_to m ([] : list value) = []).
  { intros m. unfold slice_to. destruct (0 <=? m)%Z; apply take_nil. }
  split; intros d Hfetch Hnone.
  - unfold SerperSearch_search, try_except. rewrite serper_try_fetched, Hfetch.
    rewrite (digest_well_formed _ _ _ _ body [] n tr);
      [rewrite Hempty; reflexivity | unfold dict_get; rewrite Hnone; reflexivity
      | rewrite Hempty; reflexivity].
  - unfold TavilySearch_search, try_except. rewrite tavily_try_fetched, Hfetch.
    rewrite (digest_well_formed _ _ _ _ body [] n tr);
      [rewrite Hempty; reflexivity | unfold dict_get; rewrite Hnone; reflexivity
      | rewrite Hempty; reflexivity].
Qed.

Lemma missing_hits_is_not_an_error_witness :
  SerperSearch_search serper_none "rocq" 5 [] =
    (inr [], [EvLog "info" (Found "serper" 0 None)]).
Proof.
  destruct (missing_hits_is_not_an_error "rocq" 5 [] {[ "credits" := VInt 1 ]})
    as [Hserper _].
  apply (Hserper serper_none); reflexivity.
Defined.

(** The outcome of [SearchTool.__init__], by provider name and key. *)
Lemma construction_cases (lib : libraries) (prov : string) (limit timeout : Z)
    (key : option string) (tr : list event) :
  match SearchTool_init lib prov limit timeout key tr with
  | (inr tool, tr') =>
      provider_name (provider tool) = prov /\
      max_results tool = limit /\
      tr' = tr ++ [EvLog "info" (Initialized prov)] /\
      (String.eqb prov "duckduckgo" && DUCKDUCKGO_AVAILABLE lib ||
       (String.eqb prov "serper" || String.eqb prov "tavily") && negb (no_key key))
        = true
  | (inl e, tr') =>
      tr' = tr /\
      (String.eqb prov "duckduckgo" && DUCKDUCKGO_AVAILABLE lib ||
       (String.eqb prov "serper" || String.eqb prov "tavily") && negb (no_key key))
        = false /\
      e = Raised
            (if String.eqb prov "duckduckgo"
             then "duckduckgo-search not installed. Install with: pip install duckduckgo-search"
             else if String.eqb prov "serper" then "Serper requires API key"
             else if String.eqb prov "tavily" then "Tavily requires API key"
             else "Unknown search provider: " +:+ prov)
  end.
Proof.
  unfold SearchTool_init. run_search.
  destruct (String.eqb_spec prov "duckduckgo") as [-> | H1].
  { destruct (DUCKDUCKGO_AVAILABLE lib); cbn; split_and!; reflexivity. }
  destruct (String.eqb_spec prov "serper") as [-> | H2].
  { destruct (no_key key); cbn; split_and!; reflexivity. }
  destruct (String.eqb_spec prov "tavily") as [-> | H3].
  { destruct (no_key key); cbn; split_and!; reflexivity. }
  cbn. split_and!; reflexivity.
Qed.

(** X17: [SearchTool] is constructed exactly when the provider is
    [duckduckgo] and its library is installed, or is [serper] or [tavily] and
    the key is neither [None] nor empty.  The tool then holds the provider
    that was named and the limit as given (no bound is checked), and one log
    record is written; a refused construction raises and writes nothing. *)
Theorem search_tool_construction (lib : libraries) (prov : string) (limit timeout : Z)
    (key : option string) (tr : list event) :
  match SearchTool_init lib prov limit timeout key tr with
  | (inr tool, tr') =>
      provider_name (provider tool) = prov /\
      max_results tool = limit /\
      tr' = tr ++ [EvLog "info" (Initialized prov)] /\
      (String.eqb prov "duckduckgo" && DUCKDUCKGO_AVAILABLE lib ||
       (String.eqb prov "serper" || String.eqb prov "tavily") && negb (no_key key))
        = true
  | (inl e, tr') =>
      tr' = tr /\
      (String.eqb prov "duckduckgo" && DUCKDUCKGO_AVAILABLE lib ||
       (String.eqb prov "serper" || String.eqb prov "tavily") && negb (no_key key))
        = false /\
      e = Raised
            (if String.eqb prov "duckduckgo"
             then "duckduckgo-search not installed. Install with: pip install duckduckgo-search"
             else if String.eqb prov "serper" then "Serper requires API key"
             else if String.eqb prov "tavily" then "Tavily requires API key"
             else "Unknown search provider: " +:+ prov)
  end.
Proof. apply construction_cases. Qed.



(** * Properties of the configuration *)

Lemma no_missing_keys (self : Settings) :
  validate_api_keys self = [] ->
  String.eqb (search_provider self) "serper" && no_key (serper_api_key self) = false /\
  String.eqb (search_provider self) "tavily" && no_key (tavily_api_key self) = false.
Proof.
  unfold validate_api_keys.
  destruct (String.eqb (llm_provider self) "openai" && no_key (openai_api_key self));
    destruct (String.eqb (search_provider self) "serper" &&
              no_key (serper_api_key self));
    destruct (String.eqb (search_provider self) "tavily" &&
              no_key (tavily_api_key self)); cbn; intros H;
    try discriminate H; auto.
Qed.

(** X19: [validate_api_keys] reports nothing exactly when the key of every
    selected service is set and not empty: the OpenAI key if the LLM provider
    is [openai], the Serper or the Tavily key if the search provider is that
    one.  The report lists each missing name once, the OpenAI key first, never
    more than two names, and never the Serper and the Tavily key together. *)
Theorem missing_api_keys (self : Settings) :
  (validate_api_keys self = [] <->
   (String.eqb (llm_provider self) "openai" && no_key (openai_api_key self) = false /\
    String.eqb (search_provider self) "serper" && no_key (serper_api_key self) = false /\
    String.eqb (search_provider self) "tavily" && no_key (tavily_api_key self) = false)) /\
  (length (validate_api_keys self) <= 2)%nat /\
  NoDup (validate_api_keys self) /\
  validate_api_keys self ⊆ ["OPENAI_API_KEY"; "SERPER_API_KEY"; "TAVILY_API_KEY"] /\
  ~ ("SERPER_API_KEY" ∈ validate_api_keys self /\
     "TAVILY_API_KEY" ∈ validate_api_keys self) /\
  (forall rest, validate_api_keys self ≠ "SERPER_API_KEY" :: "OPENAI_API_KEY" :: rest) /\
  (forall rest, validate_api_keys self ≠ "TAVILY_API_KEY" :: "OPENAI_API_KEY" :: rest).
Proof.
  unfold validate_api_keys.
  destruct (String.eqb_spec (search_provider self) "serper") as [Hs|Hs];
    [rewrite Hs; cbn [String.eqb Ascii.eqb Bool.eqb andb] |];
    destruct (String.eqb (llm_provider self) "openai");
    destruct (no_key (openai_api_key self));
    destruct (no_key (serper_api_key self));
    destruct (String.eqb (search_provider self) "tavily");
    destruct (no_key (tavily_api_key self)); cbn;
    (split_and!;
     [ split; [intros H; try discriminate H; auto | intros (? & ? & ?); try discriminate; reflexivity]
     | lia
     | apply (bool_decide_unpack _); reflexivity
     | apply (bool_decide_unpack _); reflexivity
     | apply (bool_decide_unpack _); reflexivity
     | intros rest H; discriminate H
     | intros rest H; discriminate H ]).
Qed.

Lemma allowed_search_provider (v : string) :
  allowed_in v search_providers =
    String.eqb v "duckduckgo" || String.eqb v "serper" || String.eqb v "tavily".
Proof.
  unfold allowed_in, search_providers. cbn.
  rewrite orb_false_r, orb_assoc. reflexivity.
Qed.

(** X20: the names [validate_search_provider] lets through are exactly the
    names [SearchTool] knows: a validated name is never answered with
    "Unknown search provider".  Settings whose search provider is validated
    and for which [validate_api_keys] reports nothing build a [SearchTool]
    from their provider, limit, timeout and the provider's key (the
    DuckDuckGo library being installed if that provider is named). *)
Theorem validated_settings_build_tool (lib : libraries) (self : Settings)
    (tr : list event) :
  validate_search_provider (search_provider self) = inr (search_provider self) ->
  validate_api_keys self = [] ->
  (String.eqb (search_provider self) "duckduckgo" = true ->
   DUCKDUCKGO_AVAILABLE lib = true) ->
  (exists tool,
     SearchTool_init lib (search_provider self) (search_max_results self)
                     (search_timeout self) (key_for self) tr =
       (inr tool, tr ++ [EvLog "info" (Initialized (search_provider self))]) /\
     provider_name (provider tool) = search_provider self /\
     max_results tool = search_max_results self) /\
  (forall v,
     (exists v', validate_search_provider v = inr v') <->
     (forall lib' limit timeout key tr',
        (SearchTool_init lib' v limit timeout key tr').1 ≠
          inl (Raised ("Unknown search provider: " +:+ v)))).
Proof.
  intros Hprov Hkeys Hlib. split.
  - apply no_missing_keys in Hkeys as (Hserper & Htavily).
    unfold validate_search_provider in Hprov.
    rewrite allowed_search_provider in Hprov.
    pose proof (construction_cases lib (search_provider self)
                  (search_max_results self) (search_timeout self)
                  (key_for self) tr) as Hmake.
    destruct (SearchTool_init _ _ _ _ _ tr) as [[e|tool] tr1].
    + exfalso. destruct Hmake as (_ & Hfalse & _). unfold key_for in Hfalse.
      destruct (String.eqb (search_provider self) "duckduckgo") eqn:H1.
      { rewrite Hlib in Hfalse by reflexivity. discriminate. }
      destruct (String.eqb (search_provider self) "serper") eqn:H2.
      { cbn in Hserper, Hfalse. rewrite Hserper in Hfalse. discriminate. }
      destruct (String.eqb (search_provider self) "tavily") eqn:H3.
      { cbn in Htavily, Hfalse. rewrite Htavily in Hfalse. discriminate. }
      discriminate.
    + destruct Hmake as (Hname & Hlimit & -> & _). eauto.
  - intros v. unfold validate_search_provider.
    rewrite allowed_search_provider. split.
    + intros [v' Hv] lib' limit timeout key tr'.
      pose proof (construction_cases lib' v limit timeout key tr') as Hmake.
      destruct (SearchTool_init lib' v limit timeout key tr') as [[e|tool] tr1];
        [| discriminate].
      destruct Hmake as (_ & _ & ->). cbn.
      destruct (String.eqb_spec v "duckduckgo") as [-> | H1]; [discriminate |].
      destruct (String.eqb_spec v "serper") as [-> | H2]; [discriminate |].
      destruct (String.eqb_spec v "tavily") as [-> | H3]; [discriminate |].
      discriminate.
    + intros Hnever.
      destruct (String.eqb v "duckduckgo" || String.eqb v "serper" ||
                String.eqb v "tavily") eqn:Hallowed; [eauto |].
      exfalso. apply (Hnever installed 5%Z 10%Z None []).
      pose proof (construction_cases installed v 5 10 None []) as Hmake.
      apply orb_false_iff in Hallowed as [Hallowed H3].
      apply orb_false_iff in Hallowed as [H1 H2].
      destruct (SearchTool_init installed v 5 10 None []) as [[e|tool] tr1].
      * destruct Hmake as (_ & _ & ->). rewrite H1, H2, H3. reflexivity.
      * destruct Hmake as (_ & _ & _ & Htrue).
        rewrite H1, H2, H3 in Htrue. discriminate.
Qed.

Lemma validated_settings_build_tool_witness :
  exists tool,
    SearchTool_init installed "serper" 5 10 (Some "k") [] =
      (inr tool, [EvLog "info" (Initialized "serper")]) /\
    provider_name (provider tool) = "serper" /\
    max_results tool = 5%Z.
Proof.
  destruct (validated_settings_build_tool installed
              (with_search "serper" (Some "k") None) [])
    as [Hmake _]; [reflexivity | reflexivity | discriminate |].
  exact Hmake.
Defined.

(** X21: [validate_configuration] never raises: every failure inside it,
    that of loading the settings and that of making the log directory
    included, comes back as [(False, "Configuration error: ...")].  A verdict
    [True] has no message and means the settings are loaded and cached and no
    key is missing; a verdict [False] has one.  When keys are missing the
    file system is not touched; a directory is made only when the log file
    has a directory part that does not exist yet.  The environment variables
    are never written. *)
Theorem configuration_verdict (pf : platform) (p : process) :
  exists verdict p',
    validate_configuration pf p = (inr verdict, p') /\
    environ p' = environ p /\
    match verdict with
    | (true, reason) =>
        reason = None /\
        exists settings,
          cached p' = Some settings /\ validate_api_keys settings = [] /\
          (get_settings pf p).1 = inr settings /\
          let log_dir := dirname pf (log_file settings) in
          if String.eqb log_dir "" || bool_decide (log_dir ∈ paths p)
          then paths p' = paths p
          else makedirs pf log_dir (paths p) = inr (paths p')
    | (false, reason) =>
        paths p' = paths p /\
        match (get_settings pf p).1 with
        | inl e => reason = Some ("Configuration error: " +:+ text_of pf e) /\ p' = p
        | inr settings =>
            if bool_decide (validate_api_keys settings = [])
            then exists e,
                   makedirs pf (dirname pf (log_file settings)) (paths p) = inl e /\
                   reason = Some ("Configuration error: " +:+ text_of pf e)
            else reason = Some ("Missing required API keys: " +:+
                                join ", " (validate_api_keys settings))
        end
    end.
Proof.
  unfold validate_configuration, try_except.
  unfold mbind, M_bind, mret, M_ret.
  destruct (get_settings pf p) as [[e|settings] p1] eqn:Hget.
  { exists (false, Some ("Configuration error: " +:+ text_of pf e)), p1.
    assert (p1 = p) as ->.
    { unfold get_settings in Hget. destruct (cached p); [discriminate |].
      destruct (load pf (environ p)); [| discriminate]. congruence. }
    cbn. auto. }
  assert (Hp1 : cached p1 = Some settings /\ environ p1 = environ p /\
                paths p1 = paths p).
  { unfold get_settings in Hget. destruct (cached p) eqn:Hc.
    - injection Hget as <- <-. auto.
    - destruct (load pf (environ p)); [discriminate |].
      injection Hget as <- <-. auto. }
  destruct Hp1 as (Hc & He & Hpaths). cbn [fst].
  destruct (bool_decide (validate_api_keys settings = [])) eqn:Hkeys; cbn [negb].
  2: { eexists _, _. split; [reflexivity |]. cbn. auto. }
  apply bool_decide_eq_true_1 in Hkeys as Hnone.
  destruct (String.eqb (dirname pf (log_file settings)) "") eqn:Hdir; cbn [negb].
  { eexists _, _. split; [reflexivity |]. split; [assumption |]. split; [reflexivity |].
    exists settings. cbn zeta. rewrite ?Hdir. cbn. auto. }
  unfold path_exists. cbn. rewrite Hpaths.
  destruct (bool_decide (dirname pf (log_file settings) ∈ paths p)) eqn:Hthere;
    cbn [negb].
  { eexists _, _. split; [reflexivity |]. split; [assumption |]. split; [reflexivity |].
    exists settings. cbn zeta. rewrite ?Hdir, ?Hthere, ?orb_true_r. cbn. auto. }
  unfold os_makedirs. rewrite Hpaths.
  destruct (makedirs pf (dirname pf (log_file settings)) (paths p)) as [e|made] eqn:Hmk.
  - eexists _, _. split; [reflexivity |]. cbn.
    rewrite ?bool_decide_eq_true_2 by assumption. eauto.
  - eexists _, _. split; [reflexivity |]. cbn. split; [assumption |].
    split; [reflexivity |]. exists settings. rewrite ?Hdir, ?Hthere. cbn. auto.
Qed.

Example configuration_of_defaults :
  validate_configuration plain (Process None ∅ ∅) =
    (inr (true, None), Process (Some defaults) ∅ {[ "logs" ]}).
Proof. vm_compute. reflexivity. Qed.

Example configuration_without_key :
  (validate_configuration plain
     (Process None {[ "SEARCH_PROVIDER" := "serper" ]} ∅)).1 =
    inr (false, Some "Missing required API keys: SERPER_API_KEY").
Proof. vm_compute. reflexivity. Qed.

(** X22: the settings are loaded once.  After a call of [get_settings] that
    returned, every later call returns the same instance without reading the
    environment again, whatever the variables have become, and so do
    [get_search_config] and [get_llm_config], built from it.  A call that
    raised cached nothing and left the store as it was. *)
Theorem settings_loaded_once (pf : platform) (p : process) :
  match get_settings pf p with
  | (inr settings, p') =>
      forall vars existing,
        let later := Process (cached p') vars existing in
        get_settings pf later = (inr settings, later) /\
        (exists config,
           get_search_config pf later = (inr config, later) /\
           config !! "provider" = Some (VStr (search_provider settings)) /\
           config !! "max_results" = Some (VInt (search_max_results settings))) /\
        (exists config,
           get_llm_config pf later = (inr config, later) /\
           config !! "provider" = Some (VStr (llm_provider settings)))
  | (inl e, p') => p' = p /\ cached p = None /\ load pf (environ p) = inl e
  end.
Proof.
  assert (Hlater : forall settings vars existing,
            let later := Process (Some settings) vars existing in
            get_settings pf later = (inr settings, later) /\
            (exists config,
               get_search_config pf later = (inr config, later) /\
               config !! "provider" = Some (VStr (search_provider settings)) /\
               config !! "max_results" = Some (VInt (search_max_results settings))) /\
            (exists config,
               get_llm_config pf later = (inr config, later) /\
               config !! "provider" = Some (VStr (llm_provider settings)))).
  { intros settings vars existing later.
    assert (Hget : get_settings pf later = (inr settings, later)) by reflexivity.
    split; [exact Hget |].
    unfold get_search_config, get_llm_config, mbind, M_bind, mret, M_ret.
    rewrite Hget. split; eexists; split_and!; reflexivity. }
  unfold get_settings at 1.
  destruct (cached p) as [settings|] eqn:Hc.
  - intros vars existing. rewrite Hc. apply Hlater.
  - destruct (load pf (environ p)) as [e|settings].
    + auto.
    + intros vars existing. apply Hlater.
Qed.

Lemma settings_loaded_once_example :
  let first := (get_settings plain (Process None ∅ ∅)).2 in
  (get_settings plain
     (Process (cached first) {[ "SEARCH_PROVIDER" := "serper" ]} ∅)).1 = inr defaults.
Proof. vm_compute. reflexivity. Qed.

(** X23: [validate_log_level] returns the upper-cased level and accepts a
    level exactly when its upper-casing is one of DEBUG, INFO, WARNING, ERROR
    and CRITICAL.  With an upper-casing that leaves these five names as they
    are, what it returns is accepted again and returned unchanged. *)
Theorem log_level_normalised (upper : string -> string) (v : string) :
  (forall name, name ∈ log_levels -> upper name = name) ->
  match validate_log_level upper v with
  | inr level =>
      level = upper v /\ level ∈ log_levels /\
      validate_log_level upper level = inr level
  | inl e =>
      ~ (upper v ∈ log_levels) /\
      e = Raised
            "Log level must be one of ['DEBUG', 'INFO', 'WARNING', 'ERROR', 'CRITICAL']"
  end.
Proof.
  intros Hfix. unfold validate_log_level.
  assert (Hin : forall x, allowed_in x log_levels = true <-> x ∈ log_levels).
  { intros x. unfold allowed_in. rewrite existsb_exists. split.
    - intros (y & Hy & Heq). apply String.eqb_eq in Heq as ->.
      apply list_elem_of_In, Hy.
    - intros Hx. exists x. split; [apply list_elem_of_In, Hx | apply String.eqb_refl]. }
  destruct (allowed_in (upper v) log_levels) eqn:Hallowed.
  - apply Hin in Hallowed as Hmem. split_and!; try reflexivity; try assumption.
    rewrite (Hfix _ Hmem), Hallowed. reflexivity.
  - split; [| reflexivity]. intros Hmem. apply Hin in Hmem. congruence.
Qed.

Lemma log_level_normalised_witness :
  validate_log_level upper_letters "debug" = inr "DEBUG" /\
  validate_log_level upper_letters "DEBUG" = inr "DEBUG".
Proof.
  pose proof (log_level_normalised upper_letters "debug") as H.
  assert (Hfix : forall name, name ∈ log_levels -> upper_letters name = name).
  { intros name Hn. unfold log_levels in Hn.
    repeat (apply elem_of_cons in Hn as [-> | Hn]; [reflexivity |]).
    apply elem_of_nil in Hn. contradiction. }
  specialize (H Hfix). cbn in H. destruct H as (_ & _ & Hagain).
  split; [reflexivity | exact Hagain].
Defined.
